(** * SeMPyRO: the FAIR Data Point client of [docs/Usage_example_FDP.ipynb]

    A shallow embedding of the notebook's [FDPClient] class, of the bulk
    publish loop that drives it, and of the mandatory-field validation the
    notebook relies on, together with the properties the specification
    states about them.

    Python objects are modelled as records, Python dictionaries as
    insertion-ordered association lists, exceptions as an inductive type,
    and the statements of a method as a state-and-exception computation
    over the client object and the outside world (remote service, request
    trace, logger, standard output). *)

From Stdlib Require Import String Ascii List ZArith Bool Lia.
Import ListNotations.

Local Open Scope list_scope.
Local Open Scope string_scope.

(** ** Python strings *)

Module PyStr.

(** [str.upper] and [str.lower], on ASCII text. *)
Definition ascii_upper (c : ascii) : ascii :=
  let n := nat_of_ascii c in
  if (97 <=? n)%nat && (n <=? 122)%nat then ascii_of_nat (n - 32) else c.

Definition ascii_lower (c : ascii) : ascii :=
  let n := nat_of_ascii c in
  if (65 <=? n)%nat && (n <=? 90)%nat then ascii_of_nat (n + 32) else c.

Fixpoint upper (s : string) : string :=
  match s with
  | EmptyString => EmptyString
  | String c s' => String (ascii_upper c) (upper s')
  end.

Fixpoint lower (s : string) : string :=
  match s with
  | EmptyString => EmptyString
  | String c s' => String (ascii_lower c) (lower s')
  end.

(** [x in [a, b, ...]] for strings. *)
Definition str_in (x : string) (l : list string) : bool :=
  existsb (String.eqb x) l.

(** [repr] of a string without quotes or escapes in it. *)
Definition repr (s : string) : string := "'" ++ s ++ "'".

End PyStr.

(** ** Python dictionaries

    A [dict] keeps its items in insertion order; assigning to a key that is
    already present replaces the value in place. *)

Module PyDict.

Definition dict (V : Type) : Type := list (string * V).

Fixpoint getitem {V} (d : dict V) (k : string) : option V :=
  match d with
  | [] => None
  | (k', v) :: d' => if String.eqb k k' then Some v else getitem d' k
  end.

Fixpoint setitem {V} (d : dict V) (k : string) (v : V) : dict V :=
  match d with
  | [] => [(k, v)]
  | (k', v') :: d' =>
      if String.eqb k k' then (k', v) :: d' else (k', v') :: setitem d' k v
  end.

(** [requests.structures.CaseInsensitiveDict]: the store is keyed by the
    lower-cased name, so look-ups and assignments lower-case the key. *)
Definition ci_getitem {V} (d : dict V) (k : string) : option V :=
  getitem d (PyStr.lower k).

Definition ci_setitem {V} (d : dict V) (k : string) (v : V) : dict V :=
  setitem d (PyStr.lower k) v.

(** [CaseInsensitiveDict.update(other)]: one assignment per item of
    [other], in its order. *)
Definition ci_update {V} (d : dict V) (other : dict V) : dict V :=
  fold_left (fun acc kv => ci_setitem acc (fst kv) (snd kv)) other d.

End PyDict.

Import PyDict.

(** ** HTTP data *)

(** A decoded JSON document, as [json.loads] returns it. *)
#[local] Unset Elimination Schemes.
Inductive json : Type :=
| JNull
| JBool (b : bool)
| JInt (n : Z)
| JFloat (literal : string)
| JStr (s : string)
| JArr (items : list json)
| JObj (members : list (string * json)).
#[local] Set Elimination Schemes.

(** What [Response.json()] does: decode, or raise a
    [requests.exceptions.JSONDecodeError] (a [RequestException]). *)
Inductive json_outcome : Type :=
| JsonValue (j : json)
| JsonDecodeError (msg : string).

Record Response : Type := mkResponse {
  status_code : Z;
  resp_headers : dict string;  (* a CaseInsensitiveDict: lower-cased keys *)
  text : string;
  json_result : json_outcome
}.

Inductive Body : Type :=
| BodyNone
| BodyData (data : string)
| BodyJson (j : json).

(** One call of the HTTP transport ([requests.post], [Session.request]). *)
Record Request : Type := mkRequest {
  req_method : string;
  req_url : string;
  req_params : option (dict string);
  req_headers : dict string;
  req_body : Body;
  req_verify : bool
}.

(** What the transport gives back: a response, or a
    [requests.exceptions.RequestException] such as [ConnectionError],
    [Timeout] or [SSLError], with its text and its [response] attribute. *)
Inductive outcome : Type :=
| Responded (r : Response)
| Failed (msg : string) (response : option Response).

(** ** Exceptions *)

Inductive exn : Type :=
| RequestException (msg : string) (response : option Response)
| FDPClientException (msg : string)
| KeyError (key : string)
| TypeError (msg : string)
| ValueError (msg : string)
| Exception (msg : string).

(** [str(e)] *)
Definition str (e : exn) : string :=
  match e with
  | RequestException msg _ => msg
  | FDPClientException msg => msg
  | KeyError key => PyStr.repr key
  | TypeError msg => msg
  | ValueError msg => msg
  | Exception msg => msg
  end.

Definition is_RequestException (e : exn) : bool :=
  match e with RequestException _ _ => true | _ => false end.

Definition is_FDPClientException (e : exn) : bool :=
  match e with FDPClientException _ => true | _ => false end.

Definition is_KeyError (e : exn) : bool :=
  match e with KeyError _ => true | _ => false end.

(** [e.response], for the exceptions that have the attribute. *)
Definition exn_response (e : exn) : option Response :=
  match e with RequestException _ r => r | _ => None end.

Inductive Res (A : Type) : Type :=
| Return (a : A)
| Raise (e : exn).
Arguments Return {A} a.
Arguments Raise {A} e.

(** ** Computations: state and exceptions

    A Python exception does not undo the effects that came before it, so
    the state is threaded through both outcomes. *)

Definition M (S A : Type) : Type := S -> Res A * S.

Definition ret {S A} (a : A) : M S A := fun s => (Return a, s).

Definition raise {S A} (e : exn) : M S A := fun s => (Raise e, s).

Definition bind {S A B} (m : M S A) (k : A -> M S B) : M S B :=
  fun s =>
    match m s with
    | (Return a, s') => k a s'
    | (Raise e, s') => (Raise e, s')
    end.

Notation "x <- m ;; k" := (bind m (fun x => k))
  (at level 61, m at next level, right associativity).
Notation "m ;;; k" := (bind m (fun _ => k))
  (at level 61, right associativity).

(** [try: body except <classes> as e: handler e] *)
Definition try_except {S A} (body : M S A) (classes : exn -> bool)
    (handler : exn -> M S A) : M S A :=
  fun s =>
    match body s with
    | (Return a, s') => (Return a, s')
    | (Raise e, s') => if classes e then handler e s' else (Raise e, s')
    end.

Definition gets {S A} (f : S -> A) : M S A := fun s => (Return (f s), s).

Definition modify {S} (f : S -> S) : M S unit := fun s => (Return tt, f s).

Definition lift_res {S A} (r : Res A) : M S A := fun s => (r, s).

(** ** The platform the notebook runs on

    The libraries the notebook imports, as an interface: the HTTP transport
    with the remote service behind it, [urllib.parse.urljoin], rdflib's
    graphs, and the texts the libraries produce. *)

Class Platform : Type := {
  (** the remote service, with whatever state it keeps *)
  Remote : Type;
  serve : Remote -> Request -> outcome * Remote;
  urljoin : string -> string -> string;
  (** [requests.utils.default_headers()], lower-cased keys *)
  default_headers : dict string;
  (** the text of the [HTTPError] that [raise_for_status] raises *)
  http_error_msg : Response -> string;
  (** [str] of a decoded JSON number, array or object *)
  format_other : json -> string;
  (** [rdflib.Graph] and [Graph.serialize()] *)
  Graph : Type;
  serialize : Graph -> string;
  (** a row of the data frame and the notebook's [create_dataset_graph] *)
  Row : Type;
  create_dataset_graph : Row -> Res Graph
}.

(** [Response.raise_for_status()]: an [HTTPError] for 4xx and 5xx. *)
Definition is_http_error (r : Response) : bool :=
  ((400 <=? status_code r)%Z && (status_code r <? 500)%Z)
  || ((500 <=? status_code r)%Z && (status_code r <? 600)%Z).

(** [str(x)] inside an f-string, for a decoded JSON value. *)
Definition format_json `{Platform} (j : json) : string :=
  match j with
  | JStr s => s
  | JNull => "None"
  | JBool true => "True"
  | JBool false => "False"
  | _ => format_other j
  end.

(** [j[key]] for a decoded JSON value and a string key. *)
Definition json_getitem (j : json) (key : string) : Res json :=
  match j with
  | JObj members =>
      match getitem members key with
      | Some v => Return v
      | None => Raise (KeyError key)
      end
  | JArr _ => Raise (TypeError "list indices must be integers or slices, not str")
  | JStr _ => Raise (TypeError "string indices must be integers, not 'str'")
  | JInt _ => Raise (TypeError "'int' object is not subscriptable")
  | JFloat _ => Raise (TypeError "'float' object is not subscriptable")
  | JBool _ => Raise (TypeError "'bool' object is not subscriptable")
  | JNull => Raise (TypeError "'NoneType' object is not subscriptable")
  end.

(** ** class FDPEndPoints *)

Module FDPEndPoints.
Definition meta : string := "meta".
Definition state : string := meta ++ "/state".
Definition members : string := "members".
Definition expanded : string := "expanded".
End FDPEndPoints.

Section Client.

Context `{P : Platform}.

(** *** The world outside the client object *)

Record World : Type := mkWorld {
  remote : Remote;
  trace : list Request;          (* every transport call, oldest first *)
  log : list string;             (* logger.error records *)
  stdout : list string;          (* print *)
  insecure_warning_ignored : bool (* urllib3.disable_warnings *)
}.

Definition with_remote_trace (rem : Remote) (tr : list Request) (w : World) : World :=
  {| remote := rem; trace := tr; log := log w; stdout := stdout w;
     insecure_warning_ignored := insecure_warning_ignored w |}.

(** One call of the transport: the request is recorded and the remote
    answers it. *)
Definition transport (req : Request) : M World Response :=
  fun w =>
    let (o, rem') := serve (remote w) req in
    let w' := with_remote_trace rem' (trace w ++ [req])%list w in
    match o with
    | Responded r => (Return r, w')
    | Failed msg resp => (Raise (RequestException msg resp), w')
    end.

Definition raise_for_status {S} (r : Response) : M S unit :=
  if is_http_error r
  then raise (RequestException (http_error_msg r) (Some r))
  else ret tt.

Definition response_json {S} (r : Response) : M S json :=
  match json_result r with
  | JsonValue j => ret j
  | JsonDecodeError msg => raise (RequestException msg None)
  end.

Definition logger_error (msg : string) : M World unit :=
  modify (fun w =>
    {| remote := remote w; trace := trace w; log := (log w ++ [msg])%list;
       stdout := stdout w;
       insecure_warning_ignored := insecure_warning_ignored w |}).

Definition print (line : string) : M World unit :=
  modify (fun w =>
    {| remote := remote w; trace := trace w; log := log w;
       stdout := (stdout w ++ [line])%list;
       insecure_warning_ignored := insecure_warning_ignored w |}).

Definition disable_warnings : M World unit :=
  modify (fun w =>
    {| remote := remote w; trace := trace w; log := log w;
       stdout := stdout w; insecure_warning_ignored := true |}).

(** [requests.post(url, json=payload)]: a one-off session with the default
    headers, the JSON content type, and certificate verification on. *)
Definition requests_post_json (url : string) (payload : json) : M World Response :=
  transport {| req_method := "POST"; req_url := url; req_params := None;
               req_headers := ci_setitem default_headers "Content-Type" "application/json";
               req_body := BodyJson payload; req_verify := true |}.

(** *** class FDPClient *)

Record FDPClient : Type := mkFDPClient {
  base_url : string;
  username : string;
  password : string;
  token : json;
  headers : dict string;          (* self.headers, a plain dict *)
  session_headers : dict string;  (* self.session.headers *)
  ssl_verification : bool
}.

(** The state a method runs in: the client object and the world. *)
Record State : Type := mkState {
  self : FDPClient;
  world : World
}.

Definition lift_world {A} (m : M World A) : M State A :=
  fun st =>
    let (r, w') := m (world st) in
    (r, {| self := self st; world := w' |}).

Definition modify_self (f : FDPClient -> FDPClient) : M State unit :=
  modify (fun st => {| self := f (self st); world := world st |}).

(** [login_fdp] runs while only [base_url], [username] and [password] are
    assigned, and reads no other attribute. *)
Definition login_fdp (base username_ password_ : string) : M World json :=
  try_except
    (token_response <-
       requests_post_json (base ++ "/tokens")
         (JObj [("email", JStr username_); ("password", JStr password_)]) ;;
     raise_for_status token_response ;;;
     response <- response_json token_response ;;
     lift_res (json_getitem response "token"))
    is_RequestException
    (fun e =>
       logger_error ("Login failed: " ++ str e) ;;;
       raise (FDPClientException ("Login failed: " ++ str e))).

Definition get_headers (token_ : json) : dict string :=
  [("Authorization", "Bearer " ++ format_json token_);
   ("Content-Type", "text/turtle")].

Definition __init__ (base username_ password_ : string) (verify_ssl : bool)
    : M World FDPClient :=
  token_ <- login_fdp base username_ password_ ;;
  let headers_ := get_headers token_ in
  let session_ := ci_update default_headers headers_ in
  (if negb verify_ssl then disable_warnings else ret tt) ;;;
  ret {| base_url := base; username := username_; password := password_;
         token := token_; headers := headers_; session_headers := session_;
         ssl_verification := verify_ssl |}.

(** [self.session.request(method, url, params=, data=, verify=)] *)
Definition session_request (method url : string)
    (params : option (dict string)) (data : option string) : M State Response :=
  fun st =>
    lift_world
      (transport
         {| req_method := method; req_url := url; req_params := params;
            req_headers := session_headers (self st);
            req_body := match data with
                        | Some d => BodyData d
                        | None => BodyNone
                        end;
            req_verify := ssl_verification (self st) |}) st.

Definition _call_method (method path : string)
    (params : option (dict string)) (data : option string) : M State Response :=
  if negb (PyStr.str_in (PyStr.upper method) ["GET"; "POST"; "PUT"; "DELETE"])
  then raise (ValueError ("Unsupported method " ++ method))
  else
    url <- gets (fun st => urljoin (base_url (self st)) path) ;;
    try_except
      (response <- session_request method url params data ;;
       raise_for_status response ;;;
       ret response)
      is_RequestException
      (fun e =>
         lift_world (logger_error ("Request failed:" ++ str e)) ;;;
         match exn_response e with
         | Some r => lift_world (logger_error (text r))
         | None => ret tt
         end ;;;
         raise (FDPClientException ("Request failed:" ++ str e))).

Definition get (path : string) (params : option (dict string)) : M State Response :=
  _call_method "GET" path params None.

Definition post (path : string) (params : option (dict string))
    (data : option string) : M State Response :=
  _call_method "POST" path params data.

Definition update (path : string) (params : option (dict string))
    (data : option string) : M State Response :=
  _call_method "PUT" path params data.

Definition delete (path : string) (params : option (dict string))
    (data : option string) : M State Response :=
  _call_method "DELETE" path params data.

Definition set_headers (h : dict string) (c : FDPClient) : FDPClient :=
  {| base_url := base_url c; username := username c; password := password c;
     token := token c; headers := h; session_headers := session_headers c;
     ssl_verification := ssl_verification c |}.

Definition set_session_headers (h : dict string) (c : FDPClient) : FDPClient :=
  {| base_url := base_url c; username := username c; password := password c;
     token := token c; headers := headers c; session_headers := h;
     ssl_verification := ssl_verification c |}.

Definition _update_session_headers : M State unit :=
  modify_self (fun c => set_session_headers (ci_update (session_headers c) (headers c)) c).

Definition _change_content_type (content_type : string) : M State unit :=
  modify_self (fun c => set_headers (setitem (headers c) "Content-Type" content_type) c) ;;;
  _update_session_headers.

Definition post_serialised (resource_type : string) (metadata : Graph)
    : M State Response :=
  _change_content_type "text/turtle" ;;;
  path <- gets (fun st => base_url (self st) ++ "/" ++ resource_type) ;;
  response <- post path None (Some (serialize metadata)) ;;
  ret response.

(** The double quote character, and the publish payload
    [{"current": "PUBLISHED"}]. *)
Definition dquote : string :=
  String (Ascii false true false false false true false false) EmptyString.

Definition published_payload : string :=
  "{" ++ dquote ++ "current" ++ dquote ++ ": "
      ++ dquote ++ "PUBLISHED" ++ dquote ++ "}".

Definition publish_record (record_url : string) : M State unit :=
  _change_content_type "application/json" ;;;
  let path := record_url ++ "/" ++ FDPEndPoints.state in
  let data := published_payload in
  update path None (Some data) ;;;
  ret tt.

(** [post_response.headers["Location"]] on the response's
    CaseInsensitiveDict; the [KeyError] names the lower-cased key. *)
Definition response_header {S} (r : Response) (name : string) : M S string :=
  match ci_getitem (resp_headers r) name with
  | Some v => ret v
  | None => raise (KeyError (PyStr.lower name))
  end.

(** [URIRef] is a [str]; the identity it returns is the header's text. *)
Definition URIRef (s : string) : string := s.

Definition create_and_publish (resource_type : string) (metadata : Graph)
    : M State string :=
  try_except
    (post_response <- post_serialised resource_type metadata ;;
     location <- response_header post_response "Location" ;;
     let fdp_subject := URIRef location in
     publish_record fdp_subject ;;;
     ret fdp_subject)
    (fun e => is_KeyError e || is_FDPClientException e)
    (fun e =>
       lift_world (logger_error ("Failed to create and publish record: " ++ str e)) ;;;
       raise (FDPClientException ("Failed to create and publish record:" ++ str e))).

(** *** The bulk publish loop: [for record in datasets: ...] *)

Fixpoint publish_datasets (datasets : list Row) : M State unit :=
  match datasets with
  | [] => ret tt
  | record :: rest =>
      dataset_graph <- lift_res (create_dataset_graph record) ;;
      try_except
        (data_fdp_id <- create_and_publish "dataset" dataset_graph ;;
         lift_world (print data_fdp_id))
        is_FDPClientException
        (fun e => lift_world (print ("An error occured : " ++ str e))) ;;;
      publish_datasets rest
  end.

(** *** Notions used to state the properties of the client *)

Definition bearer (c : FDPClient) : string := "Bearer " ++ format_json (token c).

(** The client's own headers once the content type is [ct]. *)
Definition headers_for (c : FDPClient) (ct : string) : dict string :=
  [("Authorization", bearer c); ("Content-Type", ct)].

(** What every constructed client satisfies, whatever has been called on
    it since: [self.headers] holds the bearer token and one content type,
    and the session's headers are the defaults overlaid with them. *)
Definition client_inv (c : FDPClient) : Prop :=
  exists ct, headers c = headers_for c ct
          /\ session_headers c = ci_update default_headers (headers_for c ct).

(** The client after [_change_content_type ct]. *)
Definition retag (ct : string) (c : FDPClient) : FDPClient :=
  {| base_url := base_url c; username := username c; password := password c;
     token := token c; headers := headers_for c ct;
     session_headers := ci_update default_headers (headers_for c ct);
     ssl_verification := ssl_verification c |}.

(** The request [_call_method] hands to the session. *)
Definition request_of (c : FDPClient) (method path : string)
    (params : option (dict string)) (data : option string) : Request :=
  {| req_method := method; req_url := urljoin (base_url c) path;
     req_params := params; req_headers := session_headers c;
     req_body := match data with Some d => BodyData d | None => BodyNone end;
     req_verify := ssl_verification c |}.

(** The request of the create step and the request of the publish step. *)
Definition create_request (c : FDPClient) (resource_type : string)
    (metadata : Graph) : Request :=
  request_of (retag "text/turtle" c) "POST"
    (base_url c ++ "/" ++ resource_type) None (Some (serialize metadata)).

Definition publish_request (c : FDPClient) (record_url : string) : Request :=
  request_of (retag "application/json" c) "PUT"
    (record_url ++ "/meta/state") None (Some published_payload).

(** The request of the login step. *)
Definition login_request (base username_ password_ : string) : Request :=
  {| req_method := "POST"; req_url := base ++ "/tokens"; req_params := None;
     req_headers := ci_setitem default_headers "Content-Type" "application/json";
     req_body := BodyJson (JObj [("email", JStr username_);
                                 ("password", JStr password_)]);
     req_verify := true |}.

(** How the client reads what the transport gave back: the response when
    it passes [raise_for_status], otherwise the text and the [response]
    attribute of the [RequestException]. *)
Definition accepted (o : outcome) : option Response :=
  match o with
  | Responded r => if is_http_error r then None else Some r
  | Failed _ _ => None
  end.

Definition failure_text (o : outcome) : string :=
  match o with
  | Responded r => http_error_msg r
  | Failed msg _ => msg
  end.

Definition failure_response (o : outcome) : option Response :=
  match o with
  | Responded r => Some r
  | Failed _ resp => resp
  end.

Definition logged (msg : string) (w : World) : World :=
  {| remote := remote w; trace := trace w; log := (log w ++ [msg])%list;
     stdout := stdout w;
     insecure_warning_ignored := insecure_warning_ignored w |}.

Definition logged_response (resp : option Response) (w : World) : World :=
  match resp with
  | Some r => logged (text r) w
  | None => w
  end.

(** The world after the transport has answered [req] with [o]. *)
Definition answered (req : Request) (rem' : Remote) (w : World) : World :=
  with_remote_trace rem' (trace w ++ [req])%list w.

(** What [_call_method] amounts to for a supported method, once the
    request [req] is built: one transport call, then either the response
    or the logged and re-raised failure.  [c] is the client object at the
    time of the call. *)
Definition settle (c : FDPClient) (req : Request) (w : World)
    : Res Response * State :=
  let (o, rem') := serve (remote w) req in
  let w1 := answered req rem' w in
  match accepted o with
  | Some r => (Return r, {| self := c; world := w1 |})
  | None =>
      let msg := "Request failed:" ++ failure_text o in
      (Raise (FDPClientException msg),
       {| self := c;
          world := logged_response (failure_response o) (logged msg w1) |})
  end.

(** The handler of [create_and_publish]: log, then raise the client's
    error with the text of the exception it caught. *)
Definition wrap_failure (e : exn) (st : State) : Res string * State :=
  (Raise (FDPClientException ("Failed to create and publish record:" ++ str e)),
   {| self := self st;
      world := logged ("Failed to create and publish record: " ++ str e) (world st) |}).

(** The handler of [login_fdp]. *)
Definition login_failed (msg : string) (w : World) : Res json * World :=
  (Raise (FDPClientException ("Login failed: " ++ msg)),
   logged ("Login failed: " ++ msg) w).

(** The object [__init__] leaves behind when the login returned [token_]. *)
Definition new_client (base username_ password_ : string) (verify_ssl : bool)
    (token_ : json) : FDPClient :=
  {| base_url := base; username := username_; password := password_;
     token := token_; headers := get_headers token_;
     session_headers := ci_update default_headers (get_headers token_);
     ssl_verification := verify_ssl |}.

(** A request that carries the bearer token of client [c]. *)
Definition authorized (c : FDPClient) (q : Request) : Prop :=
  ci_getitem (req_headers q) "Authorization" = Some (bearer c).

(** A request as client [c] sends it through its session: with its bearer
    token and with its setting of certificate verification. *)
Definition sent_by (c : FDPClient) (q : Request) : Prop :=
  authorized c q /\ req_verify q = ssl_verification c.

(** The create requests among the requests sent: the loop's only POSTs. *)
Definition is_create (q : Request) : bool := String.eqb (req_method q) "POST".

(** The requests sent since the trace had [n] entries. *)
Definition sent_since (n : nat) (w : World) : list Request := skipn n (trace w).

(** The calls a user of the client can make, and a caller that makes a
    series of them, going on after an exception. *)
Inductive api_call : Type :=
| CallGet (path : string) (params : option (dict string))
| CallPost (path : string) (params : option (dict string)) (data : option string)
| CallUpdate (path : string) (params : option (dict string)) (data : option string)
| CallDelete (path : string) (params : option (dict string)) (data : option string)
| CallPostSerialised (resource_type : string) (metadata : Graph)
| CallPublishRecord (record_url : string)
| CallCreateAndPublish (resource_type : string) (metadata : Graph).

Definition run_call (k : api_call) : M State unit :=
  match k with
  | CallGet path params => get path params ;;; ret tt
  | CallPost path params data => post path params data ;;; ret tt
  | CallUpdate path params data => update path params data ;;; ret tt
  | CallDelete path params data => delete path params data ;;; ret tt
  | CallPostSerialised rt g => post_serialised rt g ;;; ret tt
  | CallPublishRecord url => publish_record url
  | CallCreateAndPublish rt g => create_and_publish rt g ;;; ret tt
  end.

Fixpoint run_calls (ks : list api_call) (st : State) : State :=
  match ks with
  | [] => st
  | k :: ks' => run_calls ks' (snd (run_call k st))
  end.

End Client.

(** ** Record schemas and validation

    The schema layer ([sempyro]: [annotate_model], [mandatory_fields], the
    validation a record runs when it is built) is used by the notebook and
    not part of it. *)

Module Schema.

(** Modelled from the spec: the value kind of a Field Descriptor, which
    the notebook only names as [rdf_type]. *)
Inductive ValueKind : Type := UriReference | Literal | NestedRecord.

(** Modelled from the spec: the cardinality of a Field Descriptor. *)
Inductive Cardinality : Type := Single | Multiple.

(** Modelled from the spec: the Field Descriptor, "relation identifier,
    value kind, language tag, cardinality, mandatory". *)
Record FieldDescriptor : Type := mkField {
  relation : string;
  kind : ValueKind;
  language : option string;
  cardinality : Cardinality;
  mandatory : bool
}.

(** Modelled from the spec: the Record Schema, an "ordered mapping from
    field name to Field Descriptor". *)
Definition RecordSchema : Type := list (string * FieldDescriptor).

(** Modelled from the spec: the values a field holds, a URI reference, a
    Literal Value "text, optional language tag", or a nested record named
    by its subject. *)
Inductive Value : Type :=
| UriValue (uri : string)
| LiteralValue (text_ : string) (language_ : option string)
| RecordValue (subject : string).

(** Modelled from the spec: the Record Instance, a "mapping from field
    name to value(s)". *)
Definition RecordInstance : Type := dict (list Value).

(** Modelled from the spec: [mandatoryFields(schema)], which stands for
    sempyro's [annotate_model().mandatory_fields()], missing from the
    notebook: the names of the fields whose descriptor is mandatory, in
    the order of the schema. *)
Definition mandatoryFields (schema : RecordSchema) : list string :=
  map fst (filter (fun fd => mandatory (snd fd)) schema).

(** Modelled from the spec: a field "has a non-empty value" when the
    instance maps its name to at least one value. *)
Definition is_populated (values : RecordInstance) (name : string) : bool :=
  match getitem values name with
  | Some (_ :: _) => true
  | _ => false
  end.

(** Modelled from the spec: "every absent mandatory field", collected in
    one pass over the mandatory fields. *)
Definition missing_fields (schema : RecordSchema) (values : RecordInstance)
    : list string :=
  filter (fun name => negb (is_populated values name)) (mandatoryFields schema).

(** Modelled from the spec: a value conforms to the kind of its field. *)
Definition kind_matches (k : ValueKind) (v : Value) : bool :=
  match k, v with
  | UriReference, UriValue _ => true
  | Literal, LiteralValue _ _ => true
  | NestedRecord, RecordValue _ => true
  | _, _ => false
  end.

(** Modelled from the spec: the first field of the schema, if any, that
    holds a value of another kind than its descriptor's. *)
Fixpoint mismatched_field (schema : RecordSchema) (values : RecordInstance)
    : option string :=
  match schema with
  | [] => None
  | (name, fd) :: rest =>
      match getitem values name with
      | Some vs =>
          if forallb (kind_matches (kind fd)) vs
          then mismatched_field rest values
          else Some name
      | None => mismatched_field rest values
      end
  end.

(** Modelled from the spec: the outcomes of [validate], "ok |
    MissingFieldError(listing every absent mandatory field in one pass)",
    and the TypeMismatchError "naming the offending field". *)
Inductive ValidationResult : Type :=
| Valid
| MissingFieldError (fields : list string)
| TypeMismatchError (field : string).

(** Modelled from the spec: [validate(schema, values)], which stands for
    the validation sempyro runs when a record is built, missing from the
    notebook: a pure function of the schema and the supplied values, which
    reports every missing mandatory field in one failure and otherwise the
    field whose value has the wrong kind. *)
Definition validate (schema : RecordSchema) (values : RecordInstance)
    : ValidationResult :=
  match missing_fields schema values with
  | [] =>
      match mismatched_field schema values with
      | None => Valid
      | Some name => TypeMismatchError name
      end
  | missing => MissingFieldError missing
  end.

(** Modelled from the spec: the catalog schema of the scenario, whose
    mandatory fields the notebook prints as [['description', 'title']],
    with the optional [publisher] the notebook describes. *)
Definition catalog_schema : RecordSchema :=
  [("description",
    mkField "http://purl.org/dc/terms/description" Literal None Multiple true);
   ("title",
    mkField "http://purl.org/dc/terms/title" Literal None Multiple true);
   ("publisher",
    mkField "http://purl.org/dc/terms/publisher" UriReference None Multiple false)].

(** Modelled from the spec: the catalog record of the scenario, "title
    Test catalog, no description". *)
Definition catalog_without_description : RecordInstance :=
  [("title", [LiteralValue "Test catalog" (Some "en")])].

End Schema.

Section Submission.

Context `{P : Platform}.

(** Modelled from the spec: the outcome of the data flow below. *)
Inductive Submission : Type :=
| Rejected (failure : Schema.ValidationResult)
| Submitted (result : Res string).

(** Modelled from the spec: the data flow "instance validates mandatory
    fields, instance serializes to a graph, Repository Client submits the
    graph", with the notebook's [create_and_publish] as the last step. *)
Definition validate_then_publish (schema : Schema.RecordSchema)
    (values : Schema.RecordInstance) (to_graph : Schema.RecordInstance -> Graph)
    (resource_type : string) (st : State) : Submission * State :=
  match Schema.validate schema values with
  | Schema.Valid =>
      let (r, st') := create_and_publish resource_type (to_graph values) st in
      (Submitted r, st')
  | failure => (Rejected failure, st)
  end.

End Submission.

(** ** A scripted service, for concrete runs

    The remote answers the requests it receives with the outcomes of a
    script, in order, and refuses the connection once the script is used
    up.  [urljoin] is given an absolute URL as its second argument in every
    run below, and returns it. *)

Module Mock.

Definition scripted (script : list outcome) (req : Request)
    : outcome * list outcome :=
  match script with
  | [] => (Failed "connection refused" None, [])
  | o :: rest => (o, rest)
  end.

Definition error_text (r : Response) : string :=
  if (status_code r <? 500)%Z then "Client Error" else "Server Error".

Definition requests_defaults : dict string :=
  [("user-agent", "python-requests"); ("accept-encoding", "gzip, deflate");
   ("accept", "*/*"); ("connection", "keep-alive")].

Definition platform : Platform :=
  {| Remote := list outcome;
     serve := scripted;
     urljoin := fun _ path => path;
     default_headers := requests_defaults;
     http_error_msg := error_text;
     format_other := fun _ => "?";
     Graph := string;
     serialize := fun g => g;
     Row := string;
     create_dataset_graph := fun row => Return row |}.

(** A host whose certificate is not trusted: a request that asks for
    verification fails in the handshake, any other is answered from the
    script. *)
Definition untrusted (script : list outcome) (req : Request)
    : outcome * list outcome :=
  if req_verify req
  then (Failed "certificate verify failed" None, script)
  else scripted script req.

Definition untrusted_platform : Platform :=
  {| Remote := list outcome;
     serve := untrusted;
     urljoin := fun _ path => path;
     default_headers := requests_defaults;
     http_error_msg := error_text;
     format_other := fun _ => "?";
     Graph := string;
     serialize := fun g => g;
     Row := string;
     create_dataset_graph := fun row => Return row |}.

Definition response (status : Z) (hs : dict string) (body : string)
    (j : json_outcome) : Response :=
  {| status_code := status; resp_headers := hs; text := body; json_result := j |}.

Definition token_body : json_outcome := JsonValue (JObj [("token", JStr "t0k")]).
Definition no_json : json_outcome := JsonDecodeError "Expecting value".

Definition token_issued : outcome := Responded (response 200 [] "" token_body).
Definition created (location : string) : outcome :=
  Responded (response 201 [("location", location)] "" no_json).
Definition created_without_location : outcome :=
  Responded (response 201 [] "" no_json).
Definition accepted_state : outcome := Responded (response 200 [] "" no_json).
Definition server_error (body : string) : outcome :=
  Responded (response 500 [] body no_json).
Definition unreachable : outcome := Failed "connection refused" None.

Definition world0 (P : Platform) (rem : @Remote P) : @World P :=
  {| remote := rem; trace := []; log := []; stdout := [];
     insecure_warning_ignored := false |}.

(** A client as [__init__] builds it, logged in with token [t0k]. *)
Definition client0 (P : Platform) : FDPClient :=
  new_client "https://fdp.example" "user@example.com" "secret" true (JStr "t0k").

Definition state0 (script : list outcome) : @State platform :=
  {| self := client0 platform; world := world0 platform script |}.

Definition record_uri : string := "https://fdp.example/catalog/1".

End Mock.

(** ** A scripted service whose graph builder refuses a record

    As [Mock.platform], but [create_dataset_graph] raises the [ValueError]
    of a date that does not parse for the record named [bad]. *)

Module Strict.

Definition build (row : string) : Res string :=
  if String.eqb row "bad"
  then Raise (ValueError "time data does not match format")
  else Return row.

Definition platform : Platform :=
  {| Remote := list outcome;
     serve := Mock.scripted;
     urljoin := fun _ path => path;
     default_headers := Mock.requests_defaults;
     http_error_msg := Mock.error_text;
     format_other := fun _ => "?";
     Graph := string;
     serialize := fun g => g;
     Row := string;
     create_dataset_graph := build |}.

Definition state0 (script : list outcome) : @State platform :=
  {| self := Mock.client0 platform; world := Mock.world0 platform script |}.

End Strict.

(** ** The notebook's helpers

    [generate_unique_code], the RDF graphs the notebook assembles by hand,
    [create_agent] and [create_dataset_graph]. *)

Module Codes.

(** [string.ascii_letters] and [string.digits]. *)
Definition ascii_lowercase : string := "abcdefghijklmnopqrstuvwxyz".
Definition ascii_uppercase : string := "ABCDEFGHIJKLMNOPQRSTUVWXYZ".
Definition ascii_letters : string := ascii_lowercase ++ ascii_uppercase.
Definition digits : string := "0123456789".

(** [secrets.choice(seq)] is [seq[randbelow(len(seq))]], and an
    [IndexError] ([None] here) on an empty sequence.  [draw] is what the
    entropy source delivers for this call, reduced below [len(seq)]. *)
Definition choice (draw : nat) (seq : string) : option ascii :=
  match String.length seq with
  | O => None
  | S _ => nth_error (list_ascii_of_string seq) (draw mod String.length seq)
  end.

(** [''.join(...)] over the characters chosen, the first failure ending
    the generator. *)
Fixpoint join (chosen : list (option ascii)) : option string :=
  match chosen with
  | [] => Some EmptyString
  | Some c :: rest =>
      match join rest with
      | Some s => Some (String c s)
      | None => None
      end
  | None :: _ => None
  end.

(** [range(n)] for an integer [n]: empty when [n] is not positive. *)
Definition range (n : Z) : list nat := seq 0 (Z.to_nat n).

(** [generate_unique_code(length=5)]; [entropy i] is the draw of the
    [i]-th call of [secrets.choice]. *)
Definition generate_unique_code (entropy : nat -> nat) (length : option Z)
    : option string :=
  let length := match length with Some n => n | None => 5%Z end in
  let characters := ascii_letters ++ digits in
  let unique_code :=
    join (map (fun i => choice (entropy i) characters) (range length)) in
  unique_code.

(** An ASCII letter or digit. *)
Definition is_alnum (c : ascii) : bool :=
  let n := nat_of_ascii c in
  ((48 <=? n)%nat && (n <=? 57)%nat)
  || ((65 <=? n)%nat && (n <=? 90)%nat)
  || ((97 <=? n)%nat && (n <=? 122)%nat).

End Codes.

(** *** RDF graphs, as the notebook builds them with rdflib *)

Module Rdf.

(** The terms the notebook creates: [URIRef(iri)] and
    [Literal(lexical, datatype=...)]. *)
Inductive Node : Type :=
| URIRef (iri : string)
| Literal (lexical : string) (datatype : option string).

Definition Triple : Type := (Node * Node * Node)%type.

Definition option_eqb (a b : option string) : bool :=
  match a, b with
  | Some x, Some y => String.eqb x y
  | None, None => true
  | _, _ => false
  end.

Definition node_eqb (a b : Node) : bool :=
  match a, b with
  | URIRef x, URIRef y => String.eqb x y
  | Literal x dx, Literal y dy => String.eqb x y && option_eqb dx dy
  | _, _ => false
  end.

Definition triple_eqb (a b : Triple) : bool :=
  let '(s1, p1, o1) := a in
  let '(s2, p2, o2) := b in
  node_eqb s1 s2 && node_eqb p1 p2 && node_eqb o1 o2.

(** A [Graph] is a set of triples, kept here in the order they came in. *)
Definition Graph : Type := list Triple.

Definition empty : Graph := [].

(** [t in g] *)
Definition contains (g : Graph) (t : Triple) : bool := existsb (triple_eqb t) g.

(** [g.add(t)]: a triple the graph has already is not added again. *)
Definition add (g : Graph) (t : Triple) : Graph :=
  if contains g t then g else (g ++ [t])%list.

End Rdf.

(** The namespaces the notebook imports from rdflib. *)

Module RDF.
Definition type : Rdf.Node :=
  Rdf.URIRef "http://www.w3.org/1999/02/22-rdf-syntax-ns#type".
End RDF.

Module DCAT.
Definition Dataset : Rdf.Node := Rdf.URIRef "http://www.w3.org/ns/dcat#Dataset".
Definition keyword : Rdf.Node := Rdf.URIRef "http://www.w3.org/ns/dcat#keyword".
Definition theme : Rdf.Node := Rdf.URIRef "http://www.w3.org/ns/dcat#theme".
End DCAT.

Module DCTERMS.
Definition title : Rdf.Node := Rdf.URIRef "http://purl.org/dc/terms/title".
Definition description : Rdf.Node := Rdf.URIRef "http://purl.org/dc/terms/description".
Definition identifier : Rdf.Node := Rdf.URIRef "http://purl.org/dc/terms/identifier".
Definition isPartOf : Rdf.Node := Rdf.URIRef "http://purl.org/dc/terms/isPartOf".
Definition issued : Rdf.Node := Rdf.URIRef "http://purl.org/dc/terms/issued".
Definition creator : Rdf.Node := Rdf.URIRef "http://purl.org/dc/terms/creator".
Definition publisher : Rdf.Node := Rdf.URIRef "http://purl.org/dc/terms/publisher".
End DCTERMS.

Module FOAF.
Definition name : Rdf.Node := Rdf.URIRef "http://xmlns.com/foaf/0.1/name".
End FOAF.

Module XSD.
Definition dateTime : string := "http://www.w3.org/2001/XMLSchema#dateTime".
End XSD.

(** *** The dataset graphs *)

Module Datasets.

(** What the builder takes from the standard library and from the cells
    before it: [datetime.strptime(s, '%d-%m-%Y').isoformat()], which
    raises [ValueError] on a text that is no such date, [str.strip],
    [urllib.parse.quote(s, safe=":/")], and the global [catalog_fdp_id]. *)
Class Library : Type := {
  strptime_isoformat : string -> Res string;
  strip : string -> string;
  quote : string -> string;
  catalog_fdp_id : string
}.

(** A row of [df.to_dict('records')], with the columns the builder
    reads. *)
Record Row : Type := mkRow {
  id : list string;
  name : string;
  description : string;
  author_name : string;
  author_id : string;
  keywords : list string;
  publisher_name : string;
  publisher_id : string;
  theme : list string;
  issued : string
}.

(** What a call of the builder ends in: the graph, an exception of the
    client's world, or the [IndexError] of [record['id'][0]]. *)
Inductive Built : Type :=
| Graph_ (g : Rdf.Graph)
| Raised (e : exn)
| IndexError (msg : string).

(** [create_agent(graph, uri, name, identifier)]: the graph passed in is
    the graph that comes back. *)
Definition create_agent (graph : Rdf.Graph) (uri name_ identifier : string)
    : Rdf.Graph :=
  let agent := Rdf.URIRef uri in
  let graph := Rdf.add graph (agent, FOAF.name, Rdf.Literal name_ None) in
  let graph := Rdf.add graph (agent, DCTERMS.identifier, Rdf.Literal identifier None) in
  graph.

Definition create_dataset_graph `{Library} (record : Row) : Built :=
  let g := Rdf.empty in
  match id record with
  | [] => IndexError "list index out of range"
  | id0 :: _ =>
      let dataset_uri := Rdf.URIRef ("http://example.com/dataset_" ++ id0) in
      match strptime_isoformat (issued record) with
      | Raise e => Raised e
      | Return issued_date =>
          let g := Rdf.add g (dataset_uri, RDF.type, DCAT.Dataset) in
          let g := Rdf.add g (dataset_uri, DCTERMS.title,
                              Rdf.Literal (name record) None) in
          let g := Rdf.add g (dataset_uri, DCTERMS.description,
                              Rdf.Literal (description record) None) in
          let g := Rdf.add g (dataset_uri, DCTERMS.identifier,
                              Rdf.Literal id0 None) in
          let g := Rdf.add g (dataset_uri, DCTERMS.isPartOf,
                              Rdf.URIRef catalog_fdp_id) in
          let g := Rdf.add g (dataset_uri, DCTERMS.issued,
                              Rdf.Literal issued_date (Some XSD.dateTime)) in
          let g := Rdf.add g (dataset_uri, DCTERMS.creator,
                              Rdf.URIRef (author_id record)) in
          let g := Rdf.add g (Rdf.URIRef (author_id record), FOAF.name,
                              Rdf.Literal (author_name record) None) in
          let g := Rdf.add g (Rdf.URIRef (author_id record), DCTERMS.identifier,
                              Rdf.Literal (author_id record) None) in
          let g := Rdf.add g (dataset_uri, DCTERMS.publisher,
                              Rdf.URIRef (publisher_id record)) in
          let g := Rdf.add g (Rdf.URIRef (publisher_id record), FOAF.name,
                              Rdf.Literal (publisher_name record) None) in
          let g := Rdf.add g (Rdf.URIRef (publisher_id record), DCTERMS.identifier,
                              Rdf.Literal (publisher_id record) None) in
          let g := fold_left
                     (fun g keyword =>
                        Rdf.add g (dataset_uri, DCAT.keyword,
                                   Rdf.Literal (strip keyword) None))
                     (keywords record) g in
          let g := fold_left
                     (fun g theme_ =>
                        Rdf.add g (dataset_uri, DCAT.theme,
                                   Rdf.URIRef (quote (strip theme_))))
                     (theme record) g in
          Graph_ g
      end
  end.

(** A library for concrete runs: dates of the form [dd-mm-yyyy] with ten
    characters are taken as they are and set at midnight, anything else is
    refused; [strip] drops one leading blank; [quote] changes nothing. *)
Definition sample_library : Library :=
  {| strptime_isoformat :=
       fun s => if Nat.eqb (String.length s) 10
                then Return (substring 6 4 s ++ "-" ++ substring 3 2 s ++ "-"
                             ++ substring 0 2 s ++ "T00:00:00")
                else Raise (ValueError "time data does not match format '%d-%m-%Y'");
     strip := fun s => match s with
                       | String " " rest => rest
                       | _ => s
                       end;
     quote := fun s => s;
     catalog_fdp_id := "https://fdp.example/catalog/1" |}.

(** The first row of the notebook's example data. *)
Definition gryffindor : Row :=
  {| id := ["1"];
     name := "Gryffindor research project";
     description := "Impact of muggle technical inventions on word's magic presense";
     author_name := "Hermione Granger";
     author_id := "https://harrypotter.fandom.com/wiki/Hermione_Granger";
     keywords := ["magic"; " technic"; " muggles"];
     publisher_name := "House of Gryffindor";
     publisher_id := "https://harrypotter.fandom.com/wiki/Gryffindor";
     theme := ["https://harrypotter.fandom.com/wiki/Muggle_Studies"];
     issued := "03-04-1992" |}.

End Datasets.

(** ** The client with the failures of its libraries

    The embedding above takes [urljoin] and [Graph.serialize] as functions
    that always return, the text of an [HTTPError] as a function of the
    response alone, and an exception as its class and message.  The
    libraries do more: [urllib.parse.urljoin] raises [ValueError] on a
    malformed URL, rdflib's serializer raises on a graph it cannot write,
    [raise_for_status] ends its text with [for url: ] and the URL of the
    response, [str.upper] knows more letters than ASCII has, and an
    exception raised while another is being handled keeps that other one as
    its [__context__].  [Full] is the same client with these in. *)

(** An exception in flight, with its [__context__]. *)
#[local] Unset Elimination Schemes.
Inductive raised : Type :=
| Raised (e : exn) (context : option raised).
#[local] Set Elimination Schemes.

Definition exception (r : raised) : exn :=
  match r with Raised e _ => e end.

Definition __context__ (r : raised) : option raised :=
  match r with Raised _ context => context end.

Class Library : Type := {
  platform :: Platform;
  (** [str.upper] of a text that is not all ASCII (given, like every
      string here, by its bytes) *)
  upper_non_ascii : string -> string;
  (** the exception [urljoin(base, url)] raises, if it raises *)
  urljoin_raises : string -> string -> option exn;
  (** the exception [Graph.serialize()] raises, if it raises *)
  serialize_raises : Graph -> option exn;
  (** [f"{status_code} Client Error: {reason}"], or [Server Error] *)
  http_error_head : Response -> string;
  (** [Response.url] of the response to a request *)
  response_url : Request -> Response -> string;
  (** the [__context__] an exception raised by a library comes with: what
      the library was handling when it raised, if anything *)
  library_context : exn -> option raised
}.

Module Full.

(** How a call ends. *)
Inductive Result (A : Type) : Type :=
| Returned (a : A)
| Raising (r : raised).
Arguments Returned {A} a.
Arguments Raising {A} r.

Definition M (S A : Type) : Type := S -> Result A * S.

Definition ret {S A} (a : A) : M S A := fun s => (Returned a, s).

(** [raise e] in the client's code, where no exception is being handled. *)
Definition raise {S A} (e : exn) : M S A := fun s => (Raising (Raised e None), s).

(** [raise e] in the handler of [caught]. *)
Definition raise_handling {S A} (caught : raised) (e : exn) : M S A :=
  fun s => (Raising (Raised e (Some caught)), s).

Definition bind {S A B} (m : M S A) (k : A -> M S B) : M S B :=
  fun s =>
    match m s with
    | (Returned a, s') => k a s'
    | (Raising r, s') => (Raising r, s')
    end.

Declare Scope full_scope.
Delimit Scope full_scope with full.
Notation "x <- m ;; k" := (bind m (fun x => k))
  (at level 61, m at next level, right associativity) : full_scope.
Notation "m ;;; k" := (bind m (fun _ => k))
  (at level 61, right associativity) : full_scope.
Local Open Scope full_scope.

(** [try: body except <classes> as e: handler e] *)
Definition try_except {S A} (body : M S A) (classes : exn -> bool)
    (handler : raised -> M S A) : M S A :=
  fun s =>
    match body s with
    | (Returned a, s') => (Returned a, s')
    | (Raising r, s') =>
        if classes (exception r) then handler r s' else (Raising r, s')
    end.

Definition gets {S A} (f : S -> A) : M S A := fun s => (Returned (f s), s).

Section FullClient.

Context `{L : Library}.

(** An exception as a library raises it. *)
Definition raise_library {S A} (e : exn) : M S A :=
  fun s => (Raising (Raised e (library_context e)), s).

(** A computation of the embedding above, run here: the exceptions it
    raises are those of the libraries it calls. *)
Definition lift {S A} (m : S -> Res A * S) : M S A :=
  fun s =>
    match m s with
    | (Return a, s') => (Returned a, s')
    | (Raise e, s') => (Raising (Raised e (library_context e)), s')
    end.

(** [str.upper]: the ASCII letters of an ASCII text, and what Unicode says
    for any other. *)
Definition is_ascii (s : string) : bool :=
  forallb (fun c => (nat_of_ascii c <? 128)%nat) (list_ascii_of_string s).

Definition str_upper (s : string) : string :=
  if is_ascii s then PyStr.upper s else upper_non_ascii s.

(** [urljoin(base, url)] *)
Definition urljoin_ {S} (base url : string) : M S string :=
  match urljoin_raises base url with
  | Some e => raise_library e
  | None => ret (urljoin base url)
  end.

(** [metadata.serialize()] *)
Definition serialize_ {S} (metadata : Graph) : M S string :=
  match serialize_raises metadata with
  | Some e => raise_library e
  | None => ret (serialize metadata)
  end.

(** The text of the [HTTPError] of [raise_for_status]. *)
Definition http_error_text (req : Request) (r : Response) : string :=
  http_error_head r ++ " for url: " ++ response_url req r.

(** [response.raise_for_status()], for the response to [req]. *)
Definition raise_for_status {S} (req : Request) (r : Response) : M S unit :=
  if is_http_error r
  then raise_library (RequestException (http_error_text req r) (Some r))
  else ret tt.

Definition login_fdp (base username_ password_ : string) : M World json :=
  let req := login_request base username_ password_ in
  try_except
    (token_response <- lift (transport req) ;;
     raise_for_status req token_response ;;;
     response <- lift (response_json token_response) ;;
     lift (lift_res (json_getitem response "token")))
    is_RequestException
    (fun e =>
       lift (logger_error ("Login failed: " ++ str (exception e))) ;;;
       raise_handling e (FDPClientException ("Login failed: " ++ str (exception e)))).

Definition __init__ (base username_ password_ : string) (verify_ssl : bool)
    : M World FDPClient :=
  token_ <- login_fdp base username_ password_ ;;
  let headers_ := get_headers token_ in
  let session_ := ci_update default_headers headers_ in
  (if negb verify_ssl then lift disable_warnings else ret tt) ;;;
  ret {| base_url := base; username := username_; password := password_;
         token := token_; headers := headers_; session_headers := session_;
         ssl_verification := verify_ssl |}.

Definition _call_method (method path : string)
    (params : option (dict string)) (data : option string) : M State Response :=
  if negb (PyStr.str_in (str_upper method) ["GET"; "POST"; "PUT"; "DELETE"])
  then raise (ValueError ("Unsupported method " ++ method))
  else
    base <- gets (fun st => base_url (self st)) ;;
    url <- urljoin_ base path ;;
    req <- gets (fun st =>
                   {| req_method := method; req_url := url; req_params := params;
                      req_headers := session_headers (self st);
                      req_body := match data with
                                  | Some d => BodyData d
                                  | None => BodyNone
                                  end;
                      req_verify := ssl_verification (self st) |}) ;;
    try_except
      (response <- lift (lift_world (transport req)) ;;
       raise_for_status req response ;;;
       ret response)
      is_RequestException
      (fun e =>
         lift (lift_world (logger_error ("Request failed:" ++ str (exception e)))) ;;;
         match exn_response (exception e) with
         | Some r => lift (lift_world (logger_error (text r)))
         | None => ret tt
         end ;;;
         raise_handling e (FDPClientException ("Request failed:" ++ str (exception e)))).

Definition get (path : string) (params : option (dict string)) : M State Response :=
  _call_method "GET" path params None.

Definition post (path : string) (params : option (dict string))
    (data : option string) : M State Response :=
  _call_method "POST" path params data.

Definition update (path : string) (params : option (dict string))
    (data : option string) : M State Response :=
  _call_method "PUT" path params data.

Definition delete (path : string) (params : option (dict string))
    (data : option string) : M State Response :=
  _call_method "DELETE" path params data.

Definition post_serialised (resource_type : string) (metadata : Graph)
    : M State Response :=
  lift (_change_content_type "text/turtle") ;;;
  path <- gets (fun st => base_url (self st) ++ "/" ++ resource_type) ;;
  data <- serialize_ metadata ;;
  response <- post path None (Some data) ;;
  ret response.

Definition publish_record (record_url : string) : M State unit :=
  lift (_change_content_type "application/json") ;;;
  let path := record_url ++ "/" ++ FDPEndPoints.state in
  let data := published_payload in
  update path None (Some data) ;;;
  ret tt.

Definition create_and_publish (resource_type : string) (metadata : Graph)
    : M State string :=
  try_except
    (post_response <- post_serialised resource_type metadata ;;
     location <- lift (response_header post_response "Location") ;;
     let fdp_subject := URIRef location in
     publish_record fdp_subject ;;;
     ret fdp_subject)
    (fun e => is_KeyError e || is_FDPClientException e)
    (fun e =>
       lift (lift_world
               (logger_error ("Failed to create and publish record: "
                              ++ str (exception e)))) ;;;
       raise_handling e
         (FDPClientException ("Failed to create and publish record:"
                              ++ str (exception e)))).

Fixpoint publish_datasets (datasets : list Row) : M State unit :=
  match datasets with
  | [] => ret tt
  | record :: rest =>
      dataset_graph <- lift (lift_res (create_dataset_graph record)) ;;
      try_except
        (data_fdp_id <- create_and_publish "dataset" dataset_graph ;;
         lift (lift_world (print data_fdp_id)))
        is_FDPClientException
        (fun e => lift (lift_world (print ("An error occured : " ++ str (exception e))))) ;;;
      publish_datasets rest
  end.

(** *** Notions used to state the properties of this client *)

(** The create step can build its request: the graph serialises and the
    collection URL joins.  The publish step can build its request: the
    state URL of the record joins. *)
Definition create_builds (c : FDPClient) (resource_type : string)
    (metadata : Graph) : Prop :=
  serialize_raises metadata = None
  /\ urljoin_raises (base_url c) (base_url c ++ "/" ++ resource_type) = None.

Definition publish_builds (c : FDPClient) (record_url : string) : Prop :=
  urljoin_raises (base_url c) (record_url ++ "/meta/state") = None.

(** The text of the [RequestException] the client catches after [req] was
    answered with [o]. *)
Definition failure_text (req : Request) (o : outcome) : string :=
  match o with
  | Responded r => http_error_text req r
  | Failed msg _ => msg
  end.

(** The [RequestException] itself, and the client's error raised in its
    handler. *)
Definition library_raised (e : exn) : raised := Raised e (library_context e).

Definition request_exception (req : Request) (o : outcome) : raised :=
  library_raised (RequestException (failure_text req o) (failure_response o)).

Definition request_failed (req : Request) (o : outcome) : raised :=
  Raised (FDPClientException ("Request failed:" ++ failure_text req o))
    (Some (request_exception req o)).

(** What [_call_method] amounts to once the method is let through and the
    URL is joined: one transport call, then either the response or the
    logged failure, raised again as the client's error. *)
Definition settle (c : FDPClient) (req : Request) (w : World)
    : Result Response * State :=
  let (o, rem') := serve (remote w) req in
  let w1 := answered req rem' w in
  match accepted o with
  | Some r => (Returned r, {| self := c; world := w1 |})
  | None =>
      (Raising (request_failed req o),
       {| self := c;
          world := logged_response (failure_response o)
                     (logged ("Request failed:" ++ failure_text req o) w1) |})
  end.

(** The handler of [login_fdp]. *)
Definition login_failed {A} (r : raised) (w : World) : Result A * World :=
  (Raising (Raised (FDPClientException ("Login failed: " ++ str (exception r)))
              (Some r)),
   logged ("Login failed: " ++ str (exception r)) w).

(** What the [except (KeyError, FDPClientException)] of
    [create_and_publish] does with an exception that reaches it. *)
Definition create_and_publish_failed (r : raised) : raised :=
  Raised (FDPClientException
            ("Failed to create and publish record:" ++ str (exception r)))
    (Some r).

Definition handled (r : raised) (st : State) : Result string * State :=
  if is_KeyError (exception r) || is_FDPClientException (exception r)
  then (Raising (create_and_publish_failed r),
        {| self := self st;
           world := logged ("Failed to create and publish record: "
                            ++ str (exception r)) (world st) |})
  else (Raising r, st).

(** The world with one more line printed. *)
Definition printed (line : string) (st : State) : State :=
  {| self := self st;
     world := {| remote := remote (world st); trace := trace (world st);
                 log := log (world st);
                 stdout := (stdout (world st) ++ [line])%list;
                 insecure_warning_ignored := insecure_warning_ignored (world st) |} |}.

End FullClient.

End Full.

(** *** A scripted service behind the full client

    As [Mock.platform]; [urljoin] refuses what [urllib] refuses as an
    unfinished IPv6 address, a URL that starts [http://[] and has no closing
    bracket in any of the runs below; the serialiser refuses one graph;
    the error text is the one of a response that was not redirected; no
    library raises while it handles another exception. *)

Module FullMock.

Definition unfinished_ipv6 (url : string) : bool :=
  String.eqb (substring 0 8 url) "http://[".

Definition head (r : Response) : string :=
  if (status_code r <? 500)%Z
  then "404 Client Error: Not Found"
  else "500 Server Error: Internal Server Error".

(** [str.upper] past ASCII, as far as the runs below go: the long s,
    U+017F, in UTF-8 the bytes 197 and 191, becomes [S]. *)
Fixpoint upper_long_s (s : string) : string :=
  match s with
  | EmptyString => EmptyString
  | String a EmptyString => String (PyStr.ascii_upper a) EmptyString
  | String a (String b rest as tail) =>
      if (nat_of_ascii a =? 197)%nat && (nat_of_ascii b =? 191)%nat
      then String "S" (upper_long_s rest)
      else String (PyStr.ascii_upper a) (upper_long_s tail)
  end.


(** A graph that the serialiser refuses. *)
Definition unwritable : string := "unwritable".

Definition library : Library :=
  {| platform := Mock.platform;
     upper_non_ascii := upper_long_s;
     urljoin_raises :=
       fun _ url => if unfinished_ipv6 url
                    then Some (ValueError "Invalid IPv6 URL")
                    else None;
     serialize_raises :=
       fun g => if String.eqb g unwritable
                then Some (Exception "cannot serialise the graph")
                else None;
     http_error_head := head;
     response_url := fun req _ => req_url req;
     library_context := fun _ => None |}.

Definition state0 (script : list outcome) : @State Mock.platform :=
  Mock.state0 script.

Definition second_record_uri : string := "https://fdp.example/catalog/2".

Definition redirected : outcome := Responded (Mock.response 300 [] "" Mock.no_json).

End FullMock.

(** ** Facts about dictionaries *)

Section DictFacts.

Context {V : Type}.
Implicit Types (d : dict V) (k : string) (v : V).

Lemma getitem_setitem_eq d k v : getitem (setitem d k v) k = Some v.
Proof.
  induction d as [|[k' v'] d IH]; simpl.
  - now rewrite String.eqb_refl.
  - destruct (String.eqb k k') eqn:E; simpl; rewrite E; auto.
Qed.

Lemma getitem_setitem_ne d k k' v :
  k <> k' -> getitem (setitem d k v) k' = getitem d k'.
Proof.
  intros Hne. induction d as [|[k0 v0] d IH]; simpl.
  - destruct (String.eqb k' k) eqn:E; auto.
    apply String.eqb_eq in E. congruence.
  - destruct (String.eqb k k0) eqn:E; simpl.
    + apply String.eqb_eq in E. subst k0.
      destruct (String.eqb k' k) eqn:E'; auto.
      apply String.eqb_eq in E'. congruence.
    + now rewrite IH.
Qed.

Lemma setitem_setitem d k v v' : setitem (setitem d k v') k v = setitem d k v.
Proof.
  induction d as [|[k0 v0] d IH]; simpl.
  - now rewrite String.eqb_refl.
  - destruct (String.eqb k k0) eqn:E; simpl; rewrite E; congruence.
Qed.

Lemma setitem_same d k v : getitem d k = Some v -> setitem d k v = d.
Proof.
  induction d as [|[k0 v0] d IH]; simpl; [discriminate|].
  destruct (String.eqb k k0) eqn:E.
  - intros [= ->]. reflexivity.
  - intros H. now rewrite IH.
Qed.

End DictFacts.

(** ** Facts about the client *)

Section ClientFacts.

Context `{P : Platform}.

Lemma retag_inv ct c : client_inv (retag ct c).
Proof. exists ct. split; reflexivity. Qed.

Lemma ci_update_headers_for (d : dict string) a ct :
  ci_update d [("Authorization", a); ("Content-Type", ct)]
  = setitem (setitem d "authorization" a) "content-type" ct.
Proof. reflexivity. Qed.

Lemma change_content_type_run ct c w :
  client_inv c ->
  _change_content_type ct {| self := c; world := w |}
  = (Return tt, {| self := retag ct c; world := w |}).
Proof.
  intros (ct0 & Hh & Hs).
  unfold _change_content_type, _update_session_headers, modify_self, modify, bind.
  cbn [self world]. f_equal. f_equal.
  unfold retag, set_session_headers, set_headers; cbn [headers session_headers
    base_url username password token ssl_verification].
  rewrite Hh, Hs. unfold headers_for.
  change (setitem [("Authorization", bearer c); ("Content-Type", ct0)] "Content-Type" ct)
    with [("Authorization", bearer c); ("Content-Type", ct)].
  f_equal. rewrite !ci_update_headers_for.
  rewrite (setitem_same _ "authorization" (bearer c)).
  - apply setitem_setitem.
  - rewrite getitem_setitem_ne by discriminate. apply getitem_setitem_eq.
Qed.

(** *** One call of [_call_method] *)

Lemma call_method_run method path params data c w :
  PyStr.str_in (PyStr.upper method) ["GET"; "POST"; "PUT"; "DELETE"] = true ->
  _call_method method path params data {| self := c; world := w |}
  = settle c (request_of c method path params data) w.
Proof.
  intros Hm. unfold _call_method. rewrite Hm. cbn [negb].
  unfold settle, bind, gets, try_except, session_request, lift_world, transport,
    raise_for_status, request_of, answered.
  cbn [self world].
  destruct (serve (remote w) _) as [[r|msg resp] rem'].
  - unfold accepted, failure_text, failure_response, logged_response.
    destruct (is_http_error r); reflexivity.
  - unfold accepted, failure_text, failure_response, logged_response.
    destruct resp; reflexivity.
Qed.

Lemma settle_self c req w : self (snd (settle c req w)) = c.
Proof.
  unfold settle. destruct (serve (remote w) req) as [o rem'].
  destruct (accepted o); reflexivity.
Qed.

Lemma logged_response_trace resp w : trace (logged_response resp w) = trace w.
Proof. destruct resp; reflexivity. Qed.

Lemma logged_response_stdout resp w : stdout (logged_response resp w) = stdout w.
Proof. destruct resp; reflexivity. Qed.

Lemma logged_response_remote resp w : remote (logged_response resp w) = remote w.
Proof. destruct resp; reflexivity. Qed.

Lemma settle_trace c req w :
  trace (world (snd (settle c req w))) = (trace w ++ [req])%list.
Proof.
  unfold settle. destruct (serve (remote w) req) as [o rem'].
  destruct (accepted o); cbn [snd world]; [reflexivity|].
  now rewrite logged_response_trace.
Qed.

Lemma settle_stdout c req w : stdout (world (snd (settle c req w))) = stdout w.
Proof.
  unfold settle. destruct (serve (remote w) req) as [o rem'].
  destruct (accepted o); cbn [snd world]; [reflexivity|].
  now rewrite logged_response_stdout.
Qed.


Lemma settle_result c req w :
  fst (settle c req w)
  = match accepted (fst (serve (remote w) req)) with
    | Some r => Return r
    | None => Raise (FDPClientException
                       ("Request failed:" ++ failure_text (fst (serve (remote w) req))))
    end.
Proof.
  unfold settle. destruct (serve (remote w) req) as [o rem']. cbn [fst].
  destruct (accepted o); reflexivity.
Qed.



(** A 2xx status passes [raise_for_status]. *)
Lemma success_is_accepted r :
  (200 <= status_code r < 300)%Z -> accepted (Responded r) = Some r.
Proof.
  intros [Hlo Hhi]. unfold accepted, is_http_error.
  replace (400 <=? status_code r)%Z with false by (symmetry; apply Z.leb_gt; lia).
  replace (500 <=? status_code r)%Z with false by (symmetry; apply Z.leb_gt; lia).
  reflexivity.
Qed.

(** *** The create step and the publish step *)

(** The two requests, field by field. *)
Lemma create_request_fields c rt g :
  create_request c rt g
  = {| req_method := "POST";
       req_url := urljoin (base_url c) (base_url c ++ "/" ++ rt);
       req_params := None;
       req_headers :=
         ci_update default_headers
           [("Authorization", bearer c); ("Content-Type", "text/turtle")];
       req_body := BodyData (serialize g);
       req_verify := ssl_verification c |}.
Proof. reflexivity. Qed.

Lemma publish_request_fields c url :
  publish_request c url
  = {| req_method := "PUT";
       req_url := urljoin (base_url c) (url ++ "/meta/state");
       req_params := None;
       req_headers :=
         ci_update default_headers
           [("Authorization", bearer c); ("Content-Type", "application/json")];
       req_body := BodyData published_payload;
       req_verify := ssl_verification c |}.
Proof. reflexivity. Qed.


Lemma post_serialised_run rt g c w :
  client_inv c ->
  post_serialised rt g {| self := c; world := w |}
  = settle (retag "text/turtle" c) (create_request c rt g) w.
Proof.
  intros Hinv. unfold post_serialised, bind at 1.
  rewrite (change_content_type_run _ _ _ Hinv).
  unfold bind at 1, gets. cbn [self base_url retag].
  unfold bind, post. rewrite call_method_run by reflexivity.
  unfold create_request.
  destruct (settle _ _ w) as [[r|e] st]; reflexivity.
Qed.

Lemma publish_record_run url c w :
  client_inv c ->
  publish_record url {| self := c; world := w |}
  = (match fst (settle (retag "application/json" c) (publish_request c url) w) with
     | Return _ => Return tt
     | Raise e => Raise e
     end,
     snd (settle (retag "application/json" c) (publish_request c url) w)).
Proof.
  intros Hinv. unfold publish_record, bind at 1.
  rewrite (change_content_type_run _ _ _ Hinv).
  unfold bind, update. rewrite call_method_run by reflexivity.
  unfold publish_request. change (url ++ "/" ++ FDPEndPoints.state) with (url ++ "/meta/state").
  destruct (settle _ _ w) as [[r|e] st]; reflexivity.
Qed.

Lemma create_and_publish_run rt g c w :
  client_inv c ->
  create_and_publish rt g {| self := c; world := w |}
  = let (r1, st1) := settle (retag "text/turtle" c) (create_request c rt g) w in
    match r1 with
    | Raise e => wrap_failure e st1
    | Return resp =>
        match ci_getitem (resp_headers resp) "Location" with
        | None => wrap_failure (KeyError "location") st1
        | Some x =>
            let (r2, st2) :=
              settle (retag "application/json" c) (publish_request c x) (world st1) in
            match r2 with
            | Return _ => (Return x, st2)
            | Raise e => wrap_failure e st2
            end
        end
    end.
Proof.
  intros Hinv. unfold create_and_publish, try_except, bind at 1.
  rewrite (post_serialised_run _ _ _ _ Hinv).
  pose proof (settle_self (retag "text/turtle" c) (create_request c rt g) w) as Hself.
  pose proof (settle_result (retag "text/turtle" c) (create_request c rt g) w) as Hres.
  destruct (settle (retag "text/turtle" c) (create_request c rt g) w)
    as [[resp|e] [c1 w1]]; cbn [fst snd self world] in *; subst c1.
  - unfold bind at 1, response_header.
    destruct (ci_getitem (resp_headers resp) "Location") as [x|]; [|reflexivity].
    unfold ret at 1, bind at 1.
    rewrite (publish_record_run _ _ _ (retag_inv _ _)).
    change (publish_request (retag "text/turtle" c) (URIRef x)) with (publish_request c x).
    change (retag "application/json" (retag "text/turtle" c))
      with (retag "application/json" c).
    pose proof (settle_result (retag "application/json" c) (publish_request c x) w1) as Hres2.
    destruct (settle (retag "application/json" c) (publish_request c x) w1)
      as [[r2|e2] st2]; cbn [fst snd] in *.
    + reflexivity.
    + destruct (accepted (fst (serve (remote w1) _))); [discriminate|].
      injection Hres2 as ->. reflexivity.
  - destruct (accepted (fst (serve (remote w) _))); [discriminate|].
    injection Hres as ->. reflexivity.
Qed.

(** *** Construction *)

Lemma login_fdp_run base u p w :
  login_fdp base u p w
  = let (o, rem') := serve (remote w) (login_request base u p) in
    let w1 := answered (login_request base u p) rem' w in
    match accepted o with
    | None => login_failed (failure_text o) w1
    | Some r =>
        match json_result r with
        | JsonDecodeError msg => login_failed msg w1
        | JsonValue j => (json_getitem j "token", w1)
        end
    end.
Proof.
  unfold login_fdp, try_except, bind, requests_post_json, transport, raise_for_status,
    response_json, login_request, answered, login_failed.
  destruct (serve (remote w) _) as [[r|msg resp] rem']; cbn [accepted failure_text].
  - destruct (is_http_error r); [reflexivity|].
    unfold ret, lift_res.
    destruct (json_result r) as [j|msg]; [|reflexivity].
    destruct j as [| | | | | |members]; try reflexivity.
    cbn [json_getitem]. destruct (getitem members "token"); reflexivity.
  - reflexivity.
Qed.

Lemma init_run base u p verify w :
  __init__ base u p verify w
  = match login_fdp base u p w with
    | (Return t, w1) =>
        (Return (new_client base u p verify t),
         if verify then w1 else snd (disable_warnings w1))
    | (Raise e, w1) => (Raise e, w1)
    end.
Proof.
  unfold __init__, bind.
  destruct (login_fdp base u p w) as [[t|e] w1]; [|reflexivity].
  destruct verify; reflexivity.
Qed.

Lemma new_client_inv base u p verify t : client_inv (new_client base u p verify t).
Proof. exists "text/turtle". split; reflexivity. Qed.




Lemma retag_authorization ct c :
  ci_getitem (session_headers (retag ct c)) "Authorization" = Some (bearer c).
Proof.
  unfold retag; cbn [session_headers]. unfold headers_for.
  rewrite ci_update_headers_for.
  change (ci_getitem ?d "Authorization") with (getitem d "authorization").
  rewrite getitem_setitem_ne by discriminate. apply getitem_setitem_eq.
Qed.

Lemma is_http_error_iff r :
  is_http_error r = true <-> (400 <= status_code r < 600)%Z.
Proof.
  unfold is_http_error.
  rewrite orb_true_iff, !andb_true_iff, !Z.leb_le, !Z.ltb_lt. lia.
Qed.

Lemma not_http_error r :
  ~ (400 <= status_code r < 600)%Z -> accepted (Responded r) = Some r.
Proof.
  intros H. unfold accepted.
  destruct (is_http_error r) eqn:E; [|reflexivity].
  apply is_http_error_iff in E. contradiction.
Qed.

Lemma http_error_rejected r :
  (400 <= status_code r < 600)%Z -> accepted (Responded r) = None.
Proof.
  intros H. unfold accepted.
  apply is_http_error_iff in H. now rewrite H.
Qed.

(** *** What a call does to the client object and to the trace *)

Lemma inv_is_retag c : client_inv c -> exists ct, c = retag ct c.
Proof.
  intros (ct & Hh & Hs). exists ct. destruct c; cbn in *.
  unfold retag; cbn. now rewrite <- Hs, <- Hh.
Qed.

Lemma wrap_failure_self e st : self (snd (wrap_failure e st)) = self st.
Proof. reflexivity. Qed.

Lemma wrap_failure_trace e st :
  trace (world (snd (wrap_failure e st))) = trace (world st).
Proof. reflexivity. Qed.

Lemma wrap_failure_stdout e st :
  stdout (world (snd (wrap_failure e st))) = stdout (world st).
Proof. reflexivity. Qed.

(** [create_and_publish] sends the create request and at most one publish
    request after it, prints nothing, and leaves the client object as the
    last content-type switch made it. *)
Lemma create_and_publish_effect rt g c w :
  client_inv c ->
  let st' := snd (create_and_publish rt g {| self := c; world := w |}) in
  stdout (world st') = stdout w
  /\ ((self st' = retag "text/turtle" c
       /\ trace (world st') = (trace w ++ [create_request c rt g])%list)
      \/ (exists x,
            self st' = retag "application/json" c
            /\ trace (world st')
               = (trace w ++ [create_request c rt g; publish_request c x])%list)).
Proof.
  intros Hinv st'. subst st'. rewrite (create_and_publish_run _ _ _ _ Hinv).
  pose proof (settle_self (retag "text/turtle" c) (create_request c rt g) w) as Hs1.
  pose proof (settle_trace (retag "text/turtle" c) (create_request c rt g) w) as Ht1.
  pose proof (settle_stdout (retag "text/turtle" c) (create_request c rt g) w) as Ho1.
  destruct (settle (retag "text/turtle" c) (create_request c rt g) w)
    as [[resp|e] st1]; cbn [snd] in *.
  - destruct (ci_getitem (resp_headers resp) "Location") as [x|].
    + pose proof (settle_self (retag "application/json" c) (publish_request c x)
                    (world st1)) as Hs2.
      pose proof (settle_trace (retag "application/json" c) (publish_request c x)
                    (world st1)) as Ht2.
      pose proof (settle_stdout (retag "application/json" c) (publish_request c x)
                    (world st1)) as Ho2.
      assert (Hboth :
                forall st2 : State,
                  self st2 = retag "application/json" c ->
                  trace (world st2) = (trace (world st1) ++ [publish_request c x])%list ->
                  stdout (world st2) = stdout (world st1) ->
                  stdout (world st2) = stdout w
                  /\ ((self st2 = retag "text/turtle" c
                       /\ trace (world st2) = (trace w ++ [create_request c rt g])%list)
                      \/ (exists x0,
                            self st2 = retag "application/json" c
                            /\ trace (world st2)
                               = (trace w ++ [create_request c rt g;
                                              publish_request c x0])%list))).
      { intros st2 Hs Ht Ho. split; [congruence|]. right. exists x.
        split; [exact Hs|]. rewrite Ht, Ht1, <- app_assoc. reflexivity. }
      destruct (settle (retag "application/json" c) (publish_request c x) (world st1))
        as [[r2|e2] st2]; cbn [snd] in *.
      * now apply Hboth.
      * rewrite wrap_failure_self, wrap_failure_trace, wrap_failure_stdout.
        now apply Hboth.
    + rewrite wrap_failure_self, wrap_failure_trace, wrap_failure_stdout.
      split; [exact Ho1|]. left. split; assumption.
  - rewrite wrap_failure_self, wrap_failure_trace, wrap_failure_stdout.
    split; [exact Ho1|]. left. split; assumption.
Qed.

Lemma snd_then_ret {S A} (m : M S A) (st : S) :
  snd ((m ;;; ret tt) st) = snd (m st).
Proof. unfold bind, ret. destruct (m st) as [[a|e] s']; reflexivity. Qed.

Lemma inv_authorization c :
  client_inv c -> ci_getitem (session_headers c) "Authorization" = Some (bearer c).
Proof.
  intros (ct & _ & Hs). rewrite Hs. exact (retag_authorization ct c).
Qed.

Lemma create_request_sent_by c rt g : sent_by c (create_request c rt g).
Proof. split; [apply (retag_authorization "text/turtle" c)|reflexivity]. Qed.

Lemma publish_request_sent_by c x : sent_by c (publish_request c x).
Proof. split; [apply (retag_authorization "application/json" c)|reflexivity]. Qed.

Lemma run_call_effect k ct c0 w :
  exists ct' new,
    self (snd (run_call k {| self := retag ct c0; world := w |})) = retag ct' c0
    /\ trace (world (snd (run_call k {| self := retag ct c0; world := w |})))
       = (trace w ++ new)%list
    /\ Forall (sent_by c0) new.
Proof.
  assert (Hdirect :
            forall method path params data,
              PyStr.str_in (PyStr.upper method) ["GET"; "POST"; "PUT"; "DELETE"] = true ->
              exists ct' new,
                self (snd (_call_method method path params data
                             {| self := retag ct c0; world := w |})) = retag ct' c0
                /\ trace (world (snd (_call_method method path params data
                                        {| self := retag ct c0; world := w |})))
                   = (trace w ++ new)%list
                /\ Forall (sent_by c0) new).
  { intros method path params data Hm. rewrite (call_method_run _ _ _ _ _ _ Hm).
    exists ct, [request_of (retag ct c0) method path params data].
    rewrite settle_self, settle_trace. repeat split.
    constructor; [|constructor].
    split; [apply (retag_authorization ct c0)|reflexivity]. }
  destruct k as [path params|path params data|path params data|path params data
                |rt g|url|rt g]; cbn [run_call].
  - unfold get. rewrite snd_then_ret. now apply Hdirect.
  - unfold post. rewrite snd_then_ret. now apply Hdirect.
  - unfold update. rewrite snd_then_ret. now apply Hdirect.
  - unfold delete. rewrite snd_then_ret. now apply Hdirect.
  - rewrite snd_then_ret, (post_serialised_run _ _ _ _ (retag_inv ct c0)).
    exists "text/turtle", [create_request c0 rt g].
    rewrite settle_self, settle_trace. repeat split.
    constructor; [apply create_request_sent_by|constructor].
  - rewrite (publish_record_run _ _ _ (retag_inv ct c0)). cbn [snd].
    exists "application/json", [publish_request c0 url].
    rewrite settle_self, settle_trace. repeat split.
    constructor; [apply publish_request_sent_by|constructor].
  - rewrite snd_then_ret.
    destruct (create_and_publish_effect rt g _ w (retag_inv ct c0))
      as [_ [[Hs Ht]|[x [Hs Ht]]]].
    + exists "text/turtle", [create_request c0 rt g]. rewrite Hs, Ht. repeat split.
      constructor; [apply create_request_sent_by|constructor].
    + exists "application/json", [create_request c0 rt g; publish_request c0 x].
      rewrite Hs, Ht. repeat split.
      constructor; [apply create_request_sent_by|].
      constructor; [apply publish_request_sent_by|constructor].
Qed.

Lemma run_calls_effect c0 ks :
  forall ct w,
  exists new,
    trace (world (run_calls ks {| self := retag ct c0; world := w |}))
    = (trace w ++ new)%list
    /\ Forall (sent_by c0) new.
Proof.
  induction ks as [|k ks IH]; intros ct w; cbn [run_calls].
  - exists []. rewrite app_nil_r. split; [reflexivity|constructor].
  - destruct (run_call_effect k ct c0 w) as (ct1 & new1 & Hs & Ht & Hall).
    destruct (snd (run_call k {| self := retag ct c0; world := w |})) as [c1 w1].
    cbn [self world] in *. subst c1.
    destruct (IH ct1 w1) as (new2 & Ht2 & Hall2).
    exists (new1 ++ new2)%list. rewrite Ht2, Ht, <- app_assoc.
    split; [reflexivity|]. apply Forall_app. split; assumption.
Qed.

Lemma init_returns base u p verify w c :
  fst (__init__ base u p verify w) = Return c ->
  exists t, c = new_client base u p verify t.
Proof.
  rewrite init_run.
  destruct (login_fdp base u p w) as [[t|e] w1]; cbn [fst]; [|discriminate].
  intros [= <-]. now exists t.
Qed.

(** The invariant holds of every client [__init__] returns and of the
    client after any series of calls on it. *)
Lemma run_calls_self c0 ks :
  forall ct w,
  exists ct', self (run_calls ks {| self := retag ct c0; world := w |}) = retag ct' c0.
Proof.
  induction ks as [|k ks IH]; intros ct w; cbn [run_calls].
  - now exists ct.
  - destruct (run_call_effect k ct c0 w) as (ct1 & new1 & Hs & _).
    destruct (snd (run_call k {| self := retag ct c0; world := w |})) as [c1 w1].
    cbn [self] in Hs. subst c1. apply IH.
Qed.

Lemma constructed_client_inv base u p verify w c ks w' :
  fst (__init__ base u p verify w) = Return c ->
  client_inv (self (run_calls ks {| self := c; world := w' |})).
Proof.
  intros Hc. destruct (init_returns _ _ _ _ _ _ Hc) as [t ->].
  destruct (inv_is_retag _ (new_client_inv base u p verify t)) as [ct Hct].
  rewrite Hct.
  destruct (run_calls_self (new_client base u p verify t) ks ct w') as [ct' ->].
  apply retag_inv.
Qed.

(** A login answered with a JSON object that has no [token] member ends
    in a [KeyError], which [login_fdp] does not catch. *)
Lemma login_without_token base u p w r rem' members :
  serve (remote w) (login_request base u p) = (Responded r, rem') ->
  is_http_error r = false ->
  json_result r = JsonValue (JObj members) ->
  getitem members "token" = None ->
  fst (login_fdp base u p w) = Raise (KeyError "token").
Proof.
  intros Hs Hok Hj Hnone. rewrite login_fdp_run, Hs.
  unfold accepted. rewrite Hok, Hj. cbn [json_getitem fst]. now rewrite Hnone.
Qed.

Lemma sent_since_app (w w' : World) new :
  trace w' = (trace w ++ new)%list -> sent_since (length (trace w)) w' = new.
Proof.
  intros H. unfold sent_since. rewrite H.
  rewrite skipn_app, skipn_all, Nat.sub_diag. reflexivity.
Qed.

End ClientFacts.
(** ** Facts about the client with the failures of its libraries *)

Section FullFacts.

Context `{L : Library}.

Lemma full_change_content_type_run ct c w :
  client_inv c ->
  Full.lift (_change_content_type ct) {| self := c; world := w |}
  = (Full.Returned tt, {| self := retag ct c; world := w |}).
Proof.
  intros Hinv. unfold Full.lift. rewrite (change_content_type_run _ _ _ Hinv).
  reflexivity.
Qed.

(** *** One call of [_call_method] *)


Lemma full_call_method_unjoined method path params data st e :
  PyStr.str_in (Full.str_upper method) ["GET"; "POST"; "PUT"; "DELETE"] = true ->
  urljoin_raises (base_url (self st)) path = Some e ->
  Full._call_method method path params data st
  = (Full.Raising (Full.library_raised e), st).
Proof.
  intros Hm Hj. unfold Full._call_method. rewrite Hm. cbn [negb].
  unfold Full.bind at 1, Full.gets at 1. unfold Full.bind at 1, Full.urljoin_.
  rewrite Hj. reflexivity.
Qed.

Lemma full_call_method_run method path params data c w :
  PyStr.str_in (Full.str_upper method) ["GET"; "POST"; "PUT"; "DELETE"] = true ->
  urljoin_raises (base_url c) path = None ->
  Full._call_method method path params data {| self := c; world := w |}
  = Full.settle c (request_of c method path params data) w.
Proof.
  intros Hm Hj. unfold Full._call_method. rewrite Hm. cbn [negb].
  unfold Full.bind at 1, Full.gets at 1. cbn [self base_url].
  unfold Full.bind at 1, Full.urljoin_. rewrite Hj. unfold Full.ret at 1.
  unfold Full.bind at 1, Full.gets at 1. cbn [self].
  fold (request_of c method path params data).
  set (req := request_of c method path params data).
  unfold Full.settle, Full.try_except, Full.bind, Full.lift, lift_world, transport,
    Full.raise_for_status, answered.
  cbn [self world].
  destruct (serve (remote w) req) as [[r|msg resp] rem'].
  - unfold accepted, Full.request_failed, Full.request_exception, Full.failure_text,
      failure_response, logged_response.
    destruct (is_http_error r); reflexivity.
  - unfold accepted, Full.request_failed, Full.request_exception, Full.failure_text,
      failure_response, logged_response.
    destruct resp; reflexivity.
Qed.

Lemma full_settle_self c req w : self (snd (Full.settle c req w)) = c.
Proof.
  unfold Full.settle. destruct (serve (remote w) req) as [o rem'].
  destruct (accepted o); reflexivity.
Qed.

Lemma full_settle_trace c req w :
  trace (world (snd (Full.settle c req w))) = (trace w ++ [req])%list.
Proof.
  unfold Full.settle. destruct (serve (remote w) req) as [o rem'].
  destruct (accepted o); cbn [snd world]; [reflexivity|].
  rewrite logged_response_trace. reflexivity.
Qed.

Lemma full_settle_stdout c req w :
  stdout (world (snd (Full.settle c req w))) = stdout w.
Proof.
  unfold Full.settle. destruct (serve (remote w) req) as [o rem'].
  destruct (accepted o); cbn [snd world]; [reflexivity|].
  rewrite logged_response_stdout. reflexivity.
Qed.

Lemma full_settle_remote c req w :
  remote (world (snd (Full.settle c req w))) = snd (serve (remote w) req).
Proof.
  unfold Full.settle. destruct (serve (remote w) req) as [o rem'].
  destruct (accepted o); cbn [snd world]; [reflexivity|].
  rewrite logged_response_remote. reflexivity.
Qed.

Lemma full_settle_result c req w :
  fst (Full.settle c req w)
  = match accepted (fst (serve (remote w) req)) with
    | Some r => Full.Returned r
    | None => Full.Raising (Full.request_failed req (fst (serve (remote w) req)))
    end.
Proof.
  unfold Full.settle. destruct (serve (remote w) req) as [o rem'].
  cbn [fst]. destruct (accepted o); reflexivity.
Qed.


Lemma full_settle_returns c req w r :
  fst (Full.settle c req w) = Full.Returned r ->
  accepted (fst (serve (remote w) req)) = Some r.
Proof.
  rewrite full_settle_result.
  destruct (accepted (fst (serve (remote w) req))); [|discriminate].
  now intros [= <-].
Qed.

Lemma full_settle_accept c req w r :
  accepted (fst (serve (remote w) req)) = Some r ->
  Full.settle c req w
  = (Full.Returned r,
     {| self := c; world := answered req (snd (serve (remote w) req)) w |}).
Proof.
  unfold Full.settle. destruct (serve (remote w) req) as [o rem']. cbn [fst snd].
  now intros ->.
Qed.

Lemma full_settle_reject c req w :
  accepted (fst (serve (remote w) req)) = None ->
  Full.settle c req w
  = (Full.Raising (Full.request_failed req (fst (serve (remote w) req))),
     {| self := c;
        world := logged_response (failure_response (fst (serve (remote w) req)))
                   (logged ("Request failed:"
                            ++ Full.failure_text req (fst (serve (remote w) req)))
                      (answered req (snd (serve (remote w) req)) w)) |}).
Proof.
  unfold Full.settle. destruct (serve (remote w) req) as [o rem']. cbn [fst snd].
  now intros ->.
Qed.

Lemma full_settle_world c c' req w :
  world (snd (Full.settle c req w)) = world (snd (Full.settle c' req w)).
Proof.
  unfold Full.settle. destruct (serve (remote w) req) as [o rem'].
  destruct (accepted o); reflexivity.
Qed.

(** *** The create step, the publish step, and both *)

Lemma full_post_serialised_run rt g c w :
  client_inv c ->
  Full.post_serialised rt g {| self := c; world := w |}
  = match serialize_raises g with
    | Some e => (Full.Raising (Full.library_raised e),
                 {| self := retag "text/turtle" c; world := w |})
    | None =>
        match urljoin_raises (base_url c) (base_url c ++ "/" ++ rt) with
        | Some e => (Full.Raising (Full.library_raised e),
                     {| self := retag "text/turtle" c; world := w |})
        | None => Full.settle (retag "text/turtle" c) (create_request c rt g) w
        end
    end.
Proof.
  intros Hinv. unfold Full.post_serialised, Full.bind at 1.
  rewrite (full_change_content_type_run _ _ _ Hinv).
  unfold Full.bind at 1, Full.gets. cbn [self base_url retag].
  unfold Full.bind at 1, Full.serialize_.
  destruct (serialize_raises g) as [e|]; [reflexivity|].
  unfold Full.ret at 1, Full.bind, Full.post.
  destruct (urljoin_raises (base_url c) (base_url c ++ "/" ++ rt)) as [e|] eqn:Hj.
  - rewrite (full_call_method_unjoined _ _ _ _ _ e) by (try reflexivity; exact Hj).
    reflexivity.
  - rewrite full_call_method_run by (try reflexivity; exact Hj).
    unfold create_request.
    destruct (Full.settle _ _ w) as [[r|e] st]; reflexivity.
Qed.

Lemma full_publish_record_run url c w :
  client_inv c ->
  Full.publish_record url {| self := c; world := w |}
  = match urljoin_raises (base_url c) (url ++ "/meta/state") with
    | Some e => (Full.Raising (Full.library_raised e),
                 {| self := retag "application/json" c; world := w |})
    | None =>
        (match fst (Full.settle (retag "application/json" c) (publish_request c url) w) with
         | Full.Returned _ => Full.Returned tt
         | Full.Raising r => Full.Raising r
         end,
         snd (Full.settle (retag "application/json" c) (publish_request c url) w))
    end.
Proof.
  intros Hinv. unfold Full.publish_record, Full.bind at 1.
  rewrite (full_change_content_type_run _ _ _ Hinv).
  unfold Full.bind, Full.update.
  change (url ++ "/" ++ FDPEndPoints.state) with (url ++ "/meta/state").
  destruct (urljoin_raises (base_url c) (url ++ "/meta/state")) as [e|] eqn:Hj.
  - rewrite (full_call_method_unjoined _ _ _ _ _ e) by (try reflexivity; exact Hj).
    reflexivity.
  - rewrite full_call_method_run by (try reflexivity; exact Hj).
    unfold publish_request.
    destruct (Full.settle _ _ w) as [[r|e] st]; reflexivity.
Qed.

Lemma full_handled_run (r : raised) (st : State) :
  (if is_KeyError (exception r) || is_FDPClientException (exception r)
   then
     Full.bind
       (Full.lift (lift_world
          (logger_error ("Failed to create and publish record: "
                         ++ str (exception r)))))
       (fun _ => Full.raise_handling r
          (FDPClientException ("Failed to create and publish record:"
                               ++ str (exception r)))) st
   else (Full.Raising r, st))
  = Full.handled r st.
Proof.
  unfold Full.handled. destruct (is_KeyError _ || is_FDPClientException _); reflexivity.
Qed.

Lemma full_create_and_publish_run rt g c w :
  client_inv c ->
  Full.create_and_publish rt g {| self := c; world := w |}
  = let st0 := {| self := retag "text/turtle" c; world := w |} in
    match serialize_raises g with
    | Some e => Full.handled (Full.library_raised e) st0
    | None =>
        match urljoin_raises (base_url c) (base_url c ++ "/" ++ rt) with
        | Some e => Full.handled (Full.library_raised e) st0
        | None =>
            let (r1, st1) :=
              Full.settle (retag "text/turtle" c) (create_request c rt g) w in
            match r1 with
            | Full.Raising r => Full.handled r st1
            | Full.Returned resp =>
                match ci_getitem (resp_headers resp) "Location" with
                | None => Full.handled (Full.library_raised (KeyError "location")) st1
                | Some x =>
                    match urljoin_raises (base_url c) (x ++ "/meta/state") with
                    | Some e =>
                        Full.handled (Full.library_raised e)
                          {| self := retag "application/json" c; world := world st1 |}
                    | None =>
                        let (r2, st2) :=
                          Full.settle (retag "application/json" c)
                            (publish_request c x) (world st1) in
                        match r2 with
                        | Full.Returned _ => (Full.Returned x, st2)
                        | Full.Raising r => Full.handled r st2
                        end
                    end
                end
            end
        end
    end.
Proof.
  intros Hinv. cbv zeta.
  unfold Full.create_and_publish, Full.try_except, Full.bind at 1.
  rewrite (full_post_serialised_run _ _ _ _ Hinv).
  destruct (serialize_raises g) as [e|]; [apply full_handled_run|].
  destruct (urljoin_raises (base_url c) (base_url c ++ "/" ++ rt)) as [e|];
    [apply full_handled_run|].
  pose proof (full_settle_self (retag "text/turtle" c) (create_request c rt g) w) as Hself.
  destruct (Full.settle (retag "text/turtle" c) (create_request c rt g) w)
    as [[resp|r] [c1 w1]]; cbn [fst snd self world] in *; subst c1;
    [|apply full_handled_run].
  unfold Full.bind at 1, Full.lift at 1, response_header.
  destruct (ci_getitem (resp_headers resp) "Location") as [x|];
    [|apply (full_handled_run (Full.library_raised (KeyError "location")))].
  unfold ret at 1, Full.bind at 1.
  rewrite (full_publish_record_run _ _ _ (retag_inv _ _)).
  change (base_url (retag "text/turtle" c)) with (base_url c).
  change (URIRef x) with x.
  destruct (urljoin_raises (base_url c) (x ++ "/meta/state")) as [e|];
    [apply full_handled_run|].
  change (publish_request (retag "text/turtle" c) x) with (publish_request c x).
  change (retag "application/json" (retag "text/turtle" c))
    with (retag "application/json" c).
  destruct (Full.settle (retag "application/json" c) (publish_request c x) w1)
    as [[r2|r2] st2]; cbn [fst snd]; [reflexivity|apply full_handled_run].
Qed.

(** *** [create_and_publish], case by case *)

Lemma full_handled_request_failed req o st :
  Full.handled (Full.request_failed req o) st
  = (Full.Raising
       (Raised (FDPClientException
                  ("Failed to create and publish record:Request failed:"
                   ++ Full.failure_text req o))
          (Some (Full.request_failed req o))),
     {| self := self st;
        world := logged ("Failed to create and publish record: Request failed:"
                         ++ Full.failure_text req o) (world st) |}).
Proof. reflexivity. Qed.

Lemma full_handled_key_error key st :
  Full.handled (Full.library_raised (KeyError key)) st
  = (Full.Raising
       (Raised (FDPClientException
                  ("Failed to create and publish record:" ++ PyStr.repr key))
          (Some (Raised (KeyError key) (library_context (KeyError key))))),
     {| self := self st;
        world := logged ("Failed to create and publish record: " ++ PyStr.repr key)
                   (world st) |}).
Proof. reflexivity. Qed.

Lemma full_create_refused rt g c w :
  client_inv c ->
  Full.create_builds c rt g ->
  accepted (fst (serve (remote w) (create_request c rt g))) = None ->
  fst (Full.create_and_publish rt g {| self := c; world := w |})
  = Full.Raising
      (Raised (FDPClientException
                 ("Failed to create and publish record:Request failed:"
                  ++ Full.failure_text (create_request c rt g)
                       (fst (serve (remote w) (create_request c rt g)))))
         (Some (Full.request_failed (create_request c rt g)
                  (fst (serve (remote w) (create_request c rt g)))))).
Proof.
  intros Hinv [Hs Hj] Ha.
  rewrite (full_create_and_publish_run _ _ _ _ Hinv). cbv zeta.
  rewrite Hs, Hj, (full_settle_reject _ _ _ Ha). reflexivity.
Qed.

Lemma full_create_accepted rt g c w r1 :
  client_inv c ->
  Full.create_builds c rt g ->
  accepted (fst (serve (remote w) (create_request c rt g))) = Some r1 ->
  Full.create_and_publish rt g {| self := c; world := w |}
  = let w1 := answered (create_request c rt g)
                (snd (serve (remote w) (create_request c rt g))) w in
    match ci_getitem (resp_headers r1) "Location" with
    | None =>
        Full.handled (Full.library_raised (KeyError "location"))
          {| self := retag "text/turtle" c; world := w1 |}
    | Some x =>
        match urljoin_raises (base_url c) (x ++ "/meta/state") with
        | Some e =>
            Full.handled (Full.library_raised e)
              {| self := retag "application/json" c; world := w1 |}
        | None =>
            let (r2, st2) :=
              Full.settle (retag "application/json" c) (publish_request c x) w1 in
            match r2 with
            | Full.Returned _ => (Full.Returned x, st2)
            | Full.Raising r => Full.handled r st2
            end
        end
    end.
Proof.
  intros Hinv [Hs Hj] Ha.
  rewrite (full_create_and_publish_run _ _ _ _ Hinv). cbv zeta.
  rewrite Hs, Hj, (full_settle_accept _ _ _ _ Ha). reflexivity.
Qed.

Lemma full_location_missing rt g c w r1 :
  client_inv c ->
  Full.create_builds c rt g ->
  accepted (fst (serve (remote w) (create_request c rt g))) = Some r1 ->
  ci_getitem (resp_headers r1) "Location" = None ->
  Full.create_and_publish rt g {| self := c; world := w |}
  = (Full.Raising
       (Raised (FDPClientException "Failed to create and publish record:'location'")
          (Some (Raised (KeyError "location")
                   (library_context (KeyError "location"))))),
     {| self := retag "text/turtle" c;
        world := logged "Failed to create and publish record: 'location'"
                   (answered (create_request c rt g)
                      (snd (serve (remote w) (create_request c rt g))) w) |}).
Proof.
  intros Hinv Hb Ha Hloc. rewrite (full_create_accepted _ _ _ _ _ Hinv Hb Ha).
  cbv zeta. rewrite Hloc. reflexivity.
Qed.

Lemma full_publish_accepted rt g c w r1 x r2 :
  client_inv c ->
  Full.create_builds c rt g ->
  accepted (fst (serve (remote w) (create_request c rt g))) = Some r1 ->
  ci_getitem (resp_headers r1) "Location" = Some x ->
  Full.publish_builds c x ->
  accepted (fst (serve (snd (serve (remote w) (create_request c rt g)))
                   (publish_request c x))) = Some r2 ->
  fst (Full.create_and_publish rt g {| self := c; world := w |}) = Full.Returned x.
Proof.
  intros Hinv Hb Ha Hloc Hp Ha2. rewrite (full_create_accepted _ _ _ _ _ Hinv Hb Ha).
  cbv zeta. rewrite Hloc. unfold Full.publish_builds in Hp. rewrite Hp.
  rewrite (full_settle_accept _ _ _ r2); [reflexivity|exact Ha2].
Qed.

Lemma full_publish_refused rt g c w r1 x :
  client_inv c ->
  Full.create_builds c rt g ->
  accepted (fst (serve (remote w) (create_request c rt g))) = Some r1 ->
  ci_getitem (resp_headers r1) "Location" = Some x ->
  Full.publish_builds c x ->
  accepted (fst (serve (snd (serve (remote w) (create_request c rt g)))
                   (publish_request c x))) = None ->
  fst (Full.create_and_publish rt g {| self := c; world := w |})
  = Full.Raising
      (Raised (FDPClientException
                 ("Failed to create and publish record:Request failed:"
                  ++ Full.failure_text (publish_request c x)
                       (fst (serve (snd (serve (remote w) (create_request c rt g)))
                               (publish_request c x)))))
         (Some (Full.request_failed (publish_request c x)
                  (fst (serve (snd (serve (remote w) (create_request c rt g)))
                          (publish_request c x)))))).
Proof.
  intros Hinv Hb Ha Hloc Hp Ha2. rewrite (full_create_accepted _ _ _ _ _ Hinv Hb Ha).
  cbv zeta. rewrite Hloc. unfold Full.publish_builds in Hp. rewrite Hp.
  rewrite full_settle_reject; [reflexivity|exact Ha2].
Qed.

Lemma full_create_and_publish_returns rt g c w v :
  client_inv c ->
  fst (Full.create_and_publish rt g {| self := c; world := w |}) = Full.Returned v ->
  exists r1 r2,
    accepted (fst (serve (remote w) (create_request c rt g))) = Some r1
    /\ ci_getitem (resp_headers r1) "Location" = Some v
    /\ accepted (fst (serve (snd (serve (remote w) (create_request c rt g)))
                        (publish_request c v))) = Some r2.
Proof.
  intros Hinv. rewrite (full_create_and_publish_run _ _ _ _ Hinv). cbv zeta.
  assert (Hh : forall r0 st0, fst (Full.handled r0 st0) <> Full.Returned v).
  { intros r0 st0. unfold Full.handled.
    destruct (is_KeyError _ || is_FDPClientException _); discriminate. }
  destruct (serialize_raises g) as [e|]; [intros H; now apply Hh in H|].
  destruct (urljoin_raises (base_url c) (base_url c ++ "/" ++ rt)) as [e|];
    [intros H; now apply Hh in H|].
  destruct (accepted (fst (serve (remote w) (create_request c rt g)))) as [r1|] eqn:Ha.
  - rewrite (full_settle_accept _ _ _ _ Ha). cbn [world].
    destruct (ci_getitem (resp_headers r1) "Location") as [x|] eqn:Hloc;
      [|intros H; now apply Hh in H].
    destruct (urljoin_raises (base_url c) (x ++ "/meta/state")) as [e|];
      [intros H; now apply Hh in H|].
    destruct (accepted (fst (serve (snd (serve (remote w) (create_request c rt g)))
                               (publish_request c x)))) as [r2|] eqn:Ha2.
    + rewrite (full_settle_accept _ _ _ r2) by exact Ha2. cbn [fst].
      intros [= <-]. now exists r1, r2.
    + rewrite full_settle_reject by exact Ha2. intros H. now apply Hh in H.
  - rewrite (full_settle_reject _ _ _ Ha). intros H. now apply Hh in H.
Qed.

Lemma full_handled_self r st : self (snd (Full.handled r st)) = self st.
Proof.
  unfold Full.handled. destruct (is_KeyError _ || is_FDPClientException _); reflexivity.
Qed.

Lemma full_handled_trace r st :
  trace (world (snd (Full.handled r st))) = trace (world st).
Proof.
  unfold Full.handled. destruct (is_KeyError _ || is_FDPClientException _); reflexivity.
Qed.

Lemma full_handled_stdout r st :
  stdout (world (snd (Full.handled r st))) = stdout (world st).
Proof.
  unfold Full.handled. destruct (is_KeyError _ || is_FDPClientException _); reflexivity.
Qed.

Lemma full_handled_client_error r st :
  is_FDPClientException (exception r) = true ->
  Full.handled r st
  = (Full.Raising (Full.create_and_publish_failed r),
     {| self := self st;
        world := logged ("Failed to create and publish record: "
                         ++ str (exception r)) (world st) |}).
Proof.
  intros H. unfold Full.handled. rewrite H, orb_true_r. reflexivity.
Qed.

(** *** Construction *)

Lemma full_login_fdp_run base u p w :
  Full.login_fdp base u p w
  = let (o, rem') := serve (remote w) (login_request base u p) in
    let w1 := answered (login_request base u p) rem' w in
    match accepted o with
    | None => Full.login_failed (Full.request_exception (login_request base u p) o) w1
    | Some r =>
        match json_result r with
        | JsonDecodeError msg =>
            Full.login_failed (Full.library_raised (RequestException msg None)) w1
        | JsonValue j =>
            match json_getitem j "token" with
            | Return t => (Full.Returned t, w1)
            | Raise e => (Full.Raising (Full.library_raised e), w1)
            end
        end
    end.
Proof.
  unfold Full.login_fdp, Full.try_except, Full.bind, Full.lift, transport,
    Full.raise_for_status, response_json, answered, Full.login_failed,
    Full.request_exception, Full.library_raised, Full.raise_library.
  destruct (serve (remote w) _) as [[r|msg resp] rem'];
    cbn [accepted Full.failure_text failure_response].
  - destruct (is_http_error r); [reflexivity|].
    unfold ret, Full.ret, lift_res.
    destruct (json_result r) as [j|msg]; [|reflexivity].
    destruct j as [| | | | | |members]; try reflexivity.
    cbn [json_getitem]. destruct (getitem members "token"); reflexivity.
  - reflexivity.
Qed.

Lemma full_init_run base u p verify w :
  Full.__init__ base u p verify w
  = match Full.login_fdp base u p w with
    | (Full.Returned t, w1) =>
        (Full.Returned (new_client base u p verify t),
         if verify then w1 else snd (disable_warnings w1))
    | (Full.Raising r, w1) => (Full.Raising r, w1)
    end.
Proof.
  unfold Full.__init__, Full.bind.
  destruct (Full.login_fdp base u p w) as [[t|e] w1]; [|reflexivity].
  destruct verify; reflexivity.
Qed.

Lemma full_init_rejected base u p verify w :
  accepted (fst (serve (remote w) (login_request base u p))) = None ->
  Full.__init__ base u p verify w
  = Full.login_failed
      (Full.request_exception (login_request base u p)
         (fst (serve (remote w) (login_request base u p))))
      (answered (login_request base u p)
         (snd (serve (remote w) (login_request base u p))) w).
Proof.
  intros Ha. rewrite full_init_run, full_login_fdp_run.
  destruct (serve (remote w) (login_request base u p)) as [o rem'].
  cbn [fst snd] in *. rewrite Ha. reflexivity.
Qed.

Lemma full_init_undecodable base u p verify w r msg :
  accepted (fst (serve (remote w) (login_request base u p))) = Some r ->
  json_result r = JsonDecodeError msg ->
  Full.__init__ base u p verify w
  = Full.login_failed (Full.library_raised (RequestException msg None))
      (answered (login_request base u p)
         (snd (serve (remote w) (login_request base u p))) w).
Proof.
  intros Ha Hj. rewrite full_init_run, full_login_fdp_run.
  destruct (serve (remote w) (login_request base u p)) as [o rem'].
  cbn [fst snd] in *. rewrite Ha, Hj. reflexivity.
Qed.

Lemma full_settle_log c req w :
  accepted (fst (serve (remote w) req)) = None ->
  log (world (snd (Full.settle c req w)))
  = (log w
     ++ ("Request failed:" ++ Full.failure_text req (fst (serve (remote w) req)))%string
     :: match failure_response (fst (serve (remote w) req)) with
        | Some r => [text r]
        | None => []
        end)%list.
Proof.
  intros Ha. rewrite (full_settle_reject _ _ _ Ha). cbn [snd world].
  destruct (failure_response _); cbn; [|reflexivity].
  now rewrite <- app_assoc.
Qed.

(** *** One turn of the bulk publish loop *)

Lemma full_loop_turn row g rest st :
  create_dataset_graph row = Return g ->
  Full.publish_datasets (row :: rest) st
  = match Full.create_and_publish "dataset" g st with
    | (Full.Returned x, st1) => Full.publish_datasets rest (Full.printed x st1)
    | (Full.Raising r, st1) =>
        if is_FDPClientException (exception r)
        then Full.publish_datasets rest
               (Full.printed ("An error occured : " ++ str (exception r)) st1)
        else (Full.Raising r, st1)
    end.
Proof.
  intros Hrow. cbn [Full.publish_datasets].
  unfold Full.bind at 1, Full.lift at 1, lift_res. rewrite Hrow.
  unfold Full.bind at 1, Full.try_except, Full.bind at 1.
  destruct (Full.create_and_publish "dataset" g st) as [[x|r] st1].
  - reflexivity.
  - destruct (is_FDPClientException (exception r)); reflexivity.
Qed.

End FullFacts.


(** ** The publish step (C1) *)

Section PublishStep.

Context `{P : Platform}.


End PublishStep.

(** ** The identity a create returns (C2) *)

Section CreateIdentity.

Context `{L : Library}.

(** C2, as amended.  Take a create request that can be built (the graph
    serialises, the collection URL joins) and receives a success (2xx)
    response.  If the response carries a Location header whose state URL
    joins, [create_and_publish] returns exactly the header's value when the
    publish request that follows is accepted, and raises
    [FDPClientException] when that request is refused.  Whatever happens, a
    value it returns is the value of that header.  And if the header is
    missing it raises [FDPClientException], having sent nothing after the
    create request. *)
Theorem create_and_publish_returns_location :
  forall (c : FDPClient) (w : World) (rt : string) (g : Graph)
         (r : Response) (rem1 : Remote),
    client_inv c ->
    Full.create_builds c rt g ->
    serve (remote w) (create_request c rt g) = (Responded r, rem1) ->
    (200 <= status_code r < 300)%Z ->
    let run := Full.create_and_publish rt g {| self := c; world := w |} in
    (forall x,
        ci_getitem (resp_headers r) "Location" = Some x ->
        Full.publish_builds c x ->
        let o2 := fst (serve rem1 (publish_request c x)) in
        (forall r2, accepted o2 = Some r2 -> fst run = Full.Returned x)
        /\ (accepted o2 = None ->
            fst run
            = Full.Raising
                (Raised (FDPClientException
                           ("Failed to create and publish record:Request failed:"
                            ++ Full.failure_text (publish_request c x) o2))
                   (Some (Full.request_failed (publish_request c x) o2)))))
    /\ (forall v, fst run = Full.Returned v ->
                  ci_getitem (resp_headers r) "Location" = Some v)
    /\ (ci_getitem (resp_headers r) "Location" = None ->
        fst run
        = Full.Raising
            (Raised (FDPClientException
                       "Failed to create and publish record:'location'")
               (Some (Raised (KeyError "location")
                        (library_context (KeyError "location")))))
        /\ trace (world (snd run)) = (trace w ++ [create_request c rt g])%list).
Proof.
  intros c w rt g r rem1 Hinv Hb Hserve Hok run.
  assert (Ha : accepted (fst (serve (remote w) (create_request c rt g))) = Some r).
  { rewrite Hserve. apply (success_is_accepted _ Hok). }
  assert (Hrem : snd (serve (remote w) (create_request c rt g)) = rem1).
  { now rewrite Hserve. }
  split; [|split].
  - intros x Hloc Hp o2. split.
    + intros r2 Ha2. subst o2. rewrite <- Hrem in Ha2.
      exact (full_publish_accepted _ _ _ _ _ _ _ Hinv Hb Ha Hloc Hp Ha2).
    + intros Ha2. subst o2 run. rewrite <- Hrem in Ha2 |- *.
      exact (full_publish_refused _ _ _ _ _ _ Hinv Hb Ha Hloc Hp Ha2).
  - intros v Hv.
    destruct (full_create_and_publish_returns _ _ _ _ _ Hinv Hv) as (r1 & _ & Ha' & Hloc & _).
    rewrite Ha in Ha'. now injection Ha' as ->.
  - intros Hloc. subst run.
    rewrite (full_location_missing _ _ _ _ _ Hinv Hb Ha Hloc). split; reflexivity.
Qed.

End CreateIdentity.

(** A run of the amended C2: the create is answered 201 with a Location
    header, the publish 200, and the header's value comes back. *)
Lemma create_and_publish_returns_location_witness :
  fst (Full.create_and_publish (L := FullMock.library) "catalog" "graph"
         (FullMock.state0 [Mock.created Mock.record_uri; Mock.accepted_state]))
  = Full.Returned Mock.record_uri.
Proof.
  pose proof (create_and_publish_returns_location (L := FullMock.library)
                (Mock.client0 Mock.platform)
                (Mock.world0 Mock.platform
                   [Mock.created Mock.record_uri; Mock.accepted_state])
                "catalog" "graph" _ _
                (@new_client_inv Mock.platform _ _ _ _ _)
                ltac:(split; vm_compute; reflexivity) eq_refl) as H.
  cbv zeta in H. destruct H as [H _]; [cbn; lia|].
  destruct (H Mock.record_uri eq_refl ltac:(vm_compute; reflexivity)) as [Hret _].
  exact (Hret (Mock.response 200 [] "" Mock.no_json) eq_refl).
Defined.

(** C2 as stated fails: a create answered 201 with a Location header does
    not make the client return the header's value when the publish request
    that follows is answered 500; the client raises instead. *)
Lemma create_and_publish_returns_location_counterexample :
  ~ (forall (L : Library) (c : FDPClient) (w : World) (rt : string) (g : Graph)
            (r : Response) (rem1 : Remote) (x : string),
        client_inv c ->
        Full.create_builds c rt g ->
        Full.publish_builds c x ->
        serve (remote w) (create_request c rt g) = (Responded r, rem1) ->
        (200 <= status_code r < 300)%Z ->
        ci_getitem (resp_headers r) "Location" = Some x ->
        fst (Full.create_and_publish rt g {| self := c; world := w |})
        = Full.Returned x).
Proof.
  intros H.
  specialize (H FullMock.library (Mock.client0 Mock.platform)
                (Mock.world0 Mock.platform
                   [Mock.created Mock.record_uri; Mock.server_error "boom"])
                "catalog" "graph" _ _ Mock.record_uri
                (@new_client_inv Mock.platform _ _ _ _ _)
                ltac:(split; vm_compute; reflexivity)
                ltac:(vm_compute; reflexivity) eq_refl).
  cbn in H. specialize (H ltac:(lia) eq_refl). vm_compute in H. discriminate H.
Qed.


(** ** Authentication at construction (C3) *)

Section Construction.

Context `{P : Platform}.

Lemma init_trace base u p verify w :
  trace (snd (__init__ base u p verify w))
  = (trace w ++ [login_request base u p])%list.
Proof.
  rewrite init_run, login_fdp_run.
  destruct (serve (remote w) (login_request base u p)) as [o rem'].
  destruct (accepted o) as [r|]; [destruct (json_result r) as [j|msg]|];
    try reflexivity.
  destruct (json_getitem j "token"); [destruct verify|]; reflexivity.
Qed.

Lemma init_accepted base u p verify w r j t :
  accepted (fst (serve (remote w) (login_request base u p))) = Some r ->
  json_result r = JsonValue j ->
  json_getitem j "token" = Return t ->
  fst (__init__ base u p verify w) = Return (new_client base u p verify t).
Proof.
  intros Ha Hj Ht. rewrite init_run, login_fdp_run.
  destruct (serve (remote w) (login_request base u p)) as [o rem'].
  cbn [fst] in Ha. rewrite Ha, Hj, Ht. reflexivity.
Qed.

Lemma init_rejected base u p verify w :
  accepted (fst (serve (remote w) (login_request base u p))) = None ->
  fst (__init__ base u p verify w)
  = Raise (FDPClientException
             ("Login failed: "
              ++ failure_text (fst (serve (remote w) (login_request base u p))))).
Proof.
  intros Ha. rewrite init_run, login_fdp_run.
  destruct (serve (remote w) (login_request base u p)) as [o rem'].
  cbn [fst] in *. rewrite Ha. reflexivity.
Qed.

(** C3, as amended.  Construction makes exactly one transport call, the
    login: a POST to [{base}/tokens] whose JSON body carries the email and
    the password.  When the response has a status outside 400-599 and its
    body decodes to a JSON object with a [token] member, the client keeps
    that member and every request of every later call carries it as
    [Authorization: Bearer <token>].  When the response has a 4xx or 5xx
    status, or the transport fails, construction raises
    [FDPClientException] and yields no client. *)
Theorem init_logs_in_once :
  forall (base u p : string) (verify : bool) (w : World),
    let login :=
      {| req_method := "POST"; req_url := base ++ "/tokens"; req_params := None;
         req_headers := ci_setitem default_headers "Content-Type" "application/json";
         req_body := BodyJson (JObj [("email", JStr u); ("password", JStr p)]);
         req_verify := true |} in
    let run := __init__ base u p verify w in
    trace (snd run) = (trace w ++ [login])%list
    /\ (forall r j t,
          fst (serve (remote w) login) = Responded r ->
          ~ (400 <= status_code r < 600)%Z ->
          json_result r = JsonValue j ->
          json_getitem j "token" = Return t ->
          exists c,
            fst run = Return c
            /\ token c = t
            /\ getitem (headers c) "Authorization" = Some ("Bearer " ++ format_json t)
            /\ forall ks,
                Forall (fun q => ci_getitem (req_headers q) "Authorization"
                                 = Some ("Bearer " ++ format_json t))
                  (sent_since (length (trace (snd run)))
                     (world (run_calls ks {| self := c; world := snd run |}))))
    /\ (forall r,
          fst (serve (remote w) login) = Responded r ->
          (400 <= status_code r < 600)%Z ->
          fst run = Raise (FDPClientException ("Login failed: " ++ http_error_msg r)))
    /\ (forall msg resp,
          fst (serve (remote w) login) = Failed msg resp ->
          fst run = Raise (FDPClientException ("Login failed: " ++ msg))).
Proof.
  intros base u p verify w login run. subst run.
  change login with (login_request base u p). clear login.
  split; [apply init_trace|]. split; [|split].
  - intros r j t Ho Hst Hj Ht.
    exists (new_client base u p verify t).
    split; [|split; [reflexivity|split; [reflexivity|]]].
    + apply (init_accepted _ _ _ _ _ r j t); [|assumption..].
      rewrite Ho. now apply not_http_error.
    + intros ks.
      destruct (inv_is_retag _ (new_client_inv base u p verify t)) as [ct Hc].
      rewrite Hc.
      destruct (run_calls_effect (new_client base u p verify t) ks ct
                  (snd (__init__ base u p verify w))) as (new & Hnew & Hall).
      rewrite (sent_since_app _ _ _ Hnew).
      apply (Forall_impl _ (fun q (Hq : sent_by _ q) => proj1 Hq) Hall).
  - intros r Ho Hst. rewrite init_rejected; rewrite Ho.
    + reflexivity.
    + now apply http_error_rejected.
  - intros msg resp Ho. rewrite init_rejected; rewrite Ho; reflexivity.
Qed.

End Construction.

(** A run of the amended C3: the service answers the login 200 with the
    token [t0k]; the client then creates and publishes a record, and both
    requests carry [Bearer t0k]. *)
Lemma init_logs_in_once_witness :
  exists c,
    fst (__init__ (P := Mock.platform) "https://fdp.example" "user@example.com"
           "secret" true
           (Mock.world0 Mock.platform
              [Mock.token_issued; Mock.created Mock.record_uri; Mock.accepted_state]))
    = Return c
    /\ token c = JStr "t0k".
Proof.
  pose proof (init_logs_in_once (P := Mock.platform) "https://fdp.example"
                "user@example.com" "secret" true
                (Mock.world0 Mock.platform
                   [Mock.token_issued; Mock.created Mock.record_uri;
                    Mock.accepted_state])) as H.
  cbv zeta in H. destruct H as (_ & H & _).
  destruct (H (Mock.response 200 [] "" Mock.token_body)
              (JObj [("token", JStr "t0k")]) (JStr "t0k"))
    as (c & Hc & Ht & _).
  - reflexivity.
  - cbn. lia.
  - reflexivity.
  - reflexivity.
  - exists c. split; assumption.
Defined.

(** C3 as stated fails: a login answered with status 300 (Multiple
    Choices, which the transport does not follow) is not a 2xx response,
    yet when its body carries a token the construction succeeds and a
    session is established with it. *)
Lemma init_logs_in_once_counterexample :
  ~ (forall (P : Platform) (base u p : string) (verify : bool) (w : World)
            (r : Response),
        fst (serve (remote w) (login_request base u p)) = Responded r ->
        ~ (200 <= status_code r < 300)%Z ->
        exists msg, fst (__init__ base u p verify w) = Raise (FDPClientException msg)).
Proof.
  intros H.
  destruct (H Mock.platform "https://fdp.example" "user@example.com" "secret" true
              (Mock.world0 Mock.platform
                 [Responded (Mock.response 300 [] "" Mock.token_body)])
              (Mock.response 300 [] "" Mock.token_body) eq_refl)
    as [msg Hmsg].
  - cbn. lia.
  - discriminate Hmsg.
Qed.
(** ** The error surface (C4) *)

Section ErrorSurface.

Context `{L : Library}.

(** C4, as amended.  These failures are all raised as the one type
    [FDPClientException]: a login that the transport fails, that is
    answered 4xx or 5xx, or whose body does not decode; a request that the
    transport fails or that is answered 4xx or 5xx; and, from
    [create_and_publish], a create or publish request that fails so and a
    create response without Location header.  The exception is built from a
    message, the prefix of the step ([Login failed: ], [Request failed:],
    [Failed to create and publish record:]) followed by the text of the
    exception that was caught, and it keeps that exception as its
    [__context__]: the [RequestException] with the remote response, where
    there is one, the [KeyError] of the header, or the request's own
    [FDPClientException].  The body of the response to a failed request
    also goes to the log; a failed login logs its message only.  A
    response with any status outside 400-599 is no failure: it is
    returned. *)
Theorem failures_raise_client_exception :
  forall (c : FDPClient) (w : World),
    client_inv c ->
    (forall base u p verify,
        let req := login_request base u p in
        let o := fst (serve (remote w) req) in
        let run := Full.__init__ base u p verify w in
        (accepted o = None ->
         fst run
         = Full.Raising
             (Raised (FDPClientException ("Login failed: " ++ Full.failure_text req o))
                (Some (Raised (RequestException (Full.failure_text req o)
                                 (failure_response o))
                         (library_context
                            (RequestException (Full.failure_text req o)
                               (failure_response o))))))
         /\ log (snd run)
            = (log w ++ [("Login failed: " ++ Full.failure_text req o)%string])%list)
        /\ (forall r msg,
              accepted o = Some r ->
              json_result r = JsonDecodeError msg ->
              fst run
              = Full.Raising
                  (Raised (FDPClientException ("Login failed: " ++ msg))
                     (Some (Raised (RequestException msg None)
                              (library_context (RequestException msg None)))))))
    /\ (forall method path params data,
          PyStr.str_in (Full.str_upper method) ["GET"; "POST"; "PUT"; "DELETE"] = true ->
          urljoin_raises (base_url c) path = None ->
          let req := request_of c method path params data in
          let o := fst (serve (remote w) req) in
          let run := Full._call_method method path params data
                       {| self := c; world := w |} in
          (accepted o = None ->
           fst run
           = Full.Raising
               (Raised (FDPClientException ("Request failed:" ++ Full.failure_text req o))
                  (Some (Raised (RequestException (Full.failure_text req o)
                                   (failure_response o))
                           (library_context
                              (RequestException (Full.failure_text req o)
                                 (failure_response o))))))
           /\ log (world (snd run))
              = (log w ++ ("Request failed:" ++ Full.failure_text req o)%string
                 :: match failure_response o with
                    | Some r => [text r]
                    | None => []
                    end)%list)
          /\ (forall r, accepted o = Some r -> fst run = Full.Returned r))
    /\ (forall rt g,
          Full.create_builds c rt g ->
          let req := create_request c rt g in
          let o := fst (serve (remote w) req) in
          let run := Full.create_and_publish rt g {| self := c; world := w |} in
          (accepted o = None ->
           fst run
           = Full.Raising
               (Raised (FDPClientException
                          ("Failed to create and publish record:Request failed:"
                           ++ Full.failure_text req o))
                  (Some (Full.request_failed req o))))
          /\ (forall r,
                accepted o = Some r ->
                ci_getitem (resp_headers r) "Location" = None ->
                fst run
                = Full.Raising
                    (Raised (FDPClientException
                               "Failed to create and publish record:'location'")
                       (Some (Raised (KeyError "location")
                                (library_context (KeyError "location"))))))
          /\ (forall r x,
                accepted o = Some r ->
                ci_getitem (resp_headers r) "Location" = Some x ->
                Full.publish_builds c x ->
                let req2 := publish_request c x in
                let o2 := fst (serve (snd (serve (remote w) req)) req2) in
                accepted o2 = None ->
                fst run
                = Full.Raising
                    (Raised (FDPClientException
                               ("Failed to create and publish record:Request failed:"
                                ++ Full.failure_text req2 o2))
                       (Some (Full.request_failed req2 o2)))))
    /\ (forall req r,
          (accepted (Responded r) = None <-> (400 <= status_code r < 600)%Z)
          /\ Full.failure_text req (Responded r)
             = http_error_head r ++ " for url: " ++ response_url req r)
    /\ (forall req msg resp,
          accepted (Failed msg resp) = None
          /\ Full.failure_text req (Failed msg resp) = msg).
Proof.
  intros c w Hinv. split; [|split; [|split; [|split]]].
  - intros base u p verify req o run. split.
    + intros Ha. subst run. rewrite (full_init_rejected _ _ _ _ _ Ha).
      split; reflexivity.
    + intros r msg Ha Hj. subst run.
      rewrite (full_init_undecodable _ _ _ _ _ _ _ Ha Hj). reflexivity.
  - intros method path params data Hm Hj req o run. subst run.
    rewrite (full_call_method_run _ _ _ _ _ _ Hm Hj). split.
    + intros Ha. split.
      * rewrite (full_settle_reject _ _ _ Ha). reflexivity.
      * now apply full_settle_log.
    + intros r Ha. now rewrite (full_settle_accept _ _ _ _ Ha).
  - intros rt g Hb req o run. split; [|split].
    + intros Ha. now apply full_create_refused.
    + intros r Ha Hloc. subst run.
      now rewrite (full_location_missing _ _ _ _ _ Hinv Hb Ha Hloc).
    + intros r x Ha Hloc Hp req2 o2 Ha2.
      exact (full_publish_refused _ _ _ _ _ _ Hinv Hb Ha Hloc Hp Ha2).
  - intros req r. split; [|reflexivity]. unfold accepted.
    pose proof (is_http_error_iff r) as Hiff.
    destruct (is_http_error r); split; intros H; try discriminate; try reflexivity.
    + now apply Hiff.
    + apply Hiff in H. discriminate.
  - intros req msg resp. split; reflexivity.
Qed.

End ErrorSurface.

(** A run of the amended C4: a GET answered 500 with the body [boom]
    raises the client's error with the text of the [HTTPError], which it
    keeps with the response as its [__context__], and the body goes to the
    log. *)
Lemma failures_raise_client_exception_witness :
  let run := Full.get (L := FullMock.library) "https://fdp.example/catalog" None
               (FullMock.state0 [Mock.server_error "boom"]) in
  fst run
  = Full.Raising
      (Raised (FDPClientException
                 "Request failed:500 Server Error: Internal Server Error for url: https://fdp.example/catalog")
         (Some (Raised (RequestException
                          "500 Server Error: Internal Server Error for url: https://fdp.example/catalog"
                          (Some (Mock.response 500 [] "boom" Mock.no_json)))
                  None)))
  /\ log (world (snd run))
     = ["Request failed:500 Server Error: Internal Server Error for url: https://fdp.example/catalog";
        "boom"].
Proof.
  pose proof (failures_raise_client_exception (L := FullMock.library)
                (Mock.client0 Mock.platform)
                (Mock.world0 Mock.platform [Mock.server_error "boom"])
                (@new_client_inv Mock.platform _ _ _ _ _)) as H.
  destruct H as (_ & H & _).
  destruct (H "GET" "https://fdp.example/catalog" None None eq_refl eq_refl) as [Hfail _].
  exact (Hfail eq_refl).
Defined.

(** C4 as stated fails: not every status other than success is surfaced
    as the client's error.  A GET answered 300 raises nothing; the
    response is returned to the caller. *)
Lemma failures_raise_client_exception_counterexample :
  ~ (forall (L : Library) (c : FDPClient) (w : World) (path : string)
            (r : Response) (rem' : Remote),
        client_inv c ->
        urljoin_raises (base_url c) path = None ->
        serve (remote w) (request_of c "GET" path None None) = (Responded r, rem') ->
        ~ (200 <= status_code r < 300)%Z ->
        exists msg context,
          fst (Full.get path None {| self := c; world := w |})
          = Full.Raising (Raised (FDPClientException msg) context)).
Proof.
  intros H.
  destruct (H FullMock.library (Mock.client0 Mock.platform)
              (Mock.world0 Mock.platform [FullMock.redirected])
              "https://fdp.example/catalog" _ _
              (@new_client_inv Mock.platform _ _ _ _ _) eq_refl eq_refl)
    as (msg & context & Hraised).
  - cbn. lia.
  - vm_compute in Hraised. discriminate Hraised.
Qed.


(** ** Content-type switching (C5) *)

Section ContentType.

Context `{P : Platform}.







End ContentType.



(** ** A failed publish after a create (C6) *)

Section PublishRetry.

Context `{P : Platform}.



End PublishRetry.


(** ** Validation of mandatory fields (C7) *)

Section Validation.

Context `{P : Platform}.

Lemma missing_fields_spec schema values f :
  In f (Schema.missing_fields schema values)
  <-> In f (Schema.mandatoryFields schema) /\ Schema.is_populated values f = false.
Proof.
  unfold Schema.missing_fields. rewrite filter_In, negb_true_iff. reflexivity.
Qed.

Lemma validate_missing schema values :
  Schema.missing_fields schema values <> [] ->
  Schema.validate schema values
  = Schema.MissingFieldError (Schema.missing_fields schema values).
Proof.
  unfold Schema.validate.
  destruct (Schema.missing_fields schema values); [contradiction|reflexivity].
Qed.

(** C7.  For every record instance that lacks a mandatory field,
    validation fails with one [MissingFieldError] that lists every
    mandatory field the instance lacks, and only those; the failure comes
    before any network call, the submission being rejected with the
    client and the world as they were.  In particular the catalog with a
    title and no description fails naming [description]. *)
Theorem validation_lists_every_missing_field :
  (forall (schema : Schema.RecordSchema) (values : Schema.RecordInstance)
          (absent : string),
      In absent (Schema.mandatoryFields schema) ->
      Schema.is_populated values absent = false ->
      exists fields,
        Schema.validate schema values = Schema.MissingFieldError fields
        /\ (forall f, In f fields
                      <-> In f (Schema.mandatoryFields schema)
                          /\ Schema.is_populated values f = false)
        /\ forall to_graph rt (st : State),
            validate_then_publish schema values to_graph rt st
            = (Rejected (Schema.MissingFieldError fields), st))
  /\ Schema.mandatoryFields Schema.catalog_schema = ["description"; "title"]
  /\ Schema.validate Schema.catalog_schema Schema.catalog_without_description
     = Schema.MissingFieldError ["description"].
Proof.
  split; [|split; reflexivity].
  intros schema values absent Hmand Hpop.
  assert (Hne : Schema.missing_fields schema values <> []).
  { intros Hnil.
    assert (Hin : In absent (Schema.missing_fields schema values))
      by (apply missing_fields_spec; now split).
    rewrite Hnil in Hin. exact Hin. }
  exists (Schema.missing_fields schema values).
  split; [now apply validate_missing|].
  split; [intros f; apply missing_fields_spec|].
  intros to_graph rt st. unfold validate_then_publish.
  now rewrite (validate_missing _ _ Hne).
Qed.

End Validation.

(** A run of C7: a catalog with neither title nor description is rejected
    with both fields listed, before anything is sent. *)
Lemma validation_lists_every_missing_field_witness :
  exists fields,
    Schema.validate Schema.catalog_schema [("publisher", [Schema.UriValue "https://example.com/org"])]
    = Schema.MissingFieldError fields
    /\ (In "description" fields /\ In "title" fields)
    /\ trace (world (snd (validate_then_publish (P := Mock.platform)
                            Schema.catalog_schema
                            [("publisher", [Schema.UriValue "https://example.com/org"])]
                            (fun _ => "graph") "catalog"
                            (Mock.state0 [Mock.created Mock.record_uri]))))
       = [].
Proof.
  destruct (proj1 (validation_lists_every_missing_field (P := Mock.platform))
              Schema.catalog_schema
              [("publisher", [Schema.UriValue "https://example.com/org"])]
              "title")
    as (fields & Hval & Hall & Hsub).
  - cbn. auto.
  - reflexivity.
  - exists fields. split; [exact Hval|]. split.
    + split; apply Hall; (split; [cbn; auto|reflexivity]).
    + rewrite Hsub. reflexivity.
Defined.
(** ** The bulk publish loop (C8) *)

Section BulkPublish.

Context `{L : Library}.

(** C8 does not hold of the loop.  The loop catches [FDPClientException]
    only, and [create_and_publish] turns into that error only [KeyError]
    and [FDPClientException]; the [ValueError] that [urljoin] raises in
    [_call_method], before its [try], on a state URL it cannot parse is
    neither.  When the create request of a record is answered with a
    Location header for which [urljoin] raises [e], the exception [e]
    leaves the loop: the record's create request is the last request sent,
    nothing is printed for the record, and none of the records after it is
    submitted. *)
Theorem bulk_publish_stops_at_malformed_location :
  forall (c : FDPClient) (w : World) (row : Row) (g : Graph) (rest : list Row)
         (r1 : Response) (x : string) (e : exn),
    client_inv c ->
    create_dataset_graph row = Return g ->
    Full.create_builds c "dataset" g ->
    accepted (fst (serve (remote w) (create_request c "dataset" g))) = Some r1 ->
    ci_getitem (resp_headers r1) "Location" = Some x ->
    urljoin_raises (base_url c) (x ++ "/meta/state") = Some e ->
    is_KeyError e = false ->
    is_FDPClientException e = false ->
    let run := Full.publish_datasets (row :: rest) {| self := c; world := w |} in
    fst run = Full.Raising (Raised e (library_context e))
    /\ trace (world (snd run)) = (trace w ++ [create_request c "dataset" g])%list
    /\ stdout (world (snd run)) = stdout w.
Proof.
  intros c w row g rest r1 x e Hinv Hrow [Hs Hj] Ha Hloc Hx Hk Hf run. subst run.
  rewrite (full_loop_turn _ _ _ _ Hrow).
  rewrite (full_create_and_publish_run _ _ _ _ Hinv). cbv zeta.
  rewrite Hs, Hj.
  pose proof (full_settle_result (retag "text/turtle" c) (create_request c "dataset" g) w)
    as Hres.
  pose proof (full_settle_trace (retag "text/turtle" c) (create_request c "dataset" g) w)
    as Htrace.
  pose proof (full_settle_stdout (retag "text/turtle" c) (create_request c "dataset" g) w)
    as Hout.
  rewrite Ha in Hres.
  destruct (Full.settle (retag "text/turtle" c) (create_request c "dataset" g) w)
    as [res1 st1]; cbn [fst snd] in *. subst res1.
  rewrite Hloc, Hx. unfold Full.handled, Full.library_raised. cbn [exception].
  rewrite Hk, Hf. cbn [orb exception]. rewrite Hf. cbn [fst snd world].
  auto.
Qed.

End BulkPublish.

(** The loop at the failing input: two records, the create of the first
    answered 201 with the Location [http://[].  [urljoin] raises
    [ValueError] on the state URL, the loop ends with it, and the second
    record is never submitted. *)
Lemma bulk_publish_stops_at_malformed_location_witness :
  let run :=
    Full.publish_datasets (L := FullMock.library) ["one"; "two"]
      (FullMock.state0
         [Mock.created "http://["; Mock.created FullMock.second_record_uri;
          Mock.accepted_state]) in
  fst run = Full.Raising (Raised (ValueError "Invalid IPv6 URL") None)
  /\ map req_method (trace (world (snd run))) = ["POST"]
  /\ stdout (world (snd run)) = [].
Proof.
  destruct (bulk_publish_stops_at_malformed_location (L := FullMock.library)
              (Mock.client0 Mock.platform)
              (Mock.world0 Mock.platform
                 [Mock.created "http://["; Mock.created FullMock.second_record_uri;
                  Mock.accepted_state])
              "one" "one" ["two"]
              (Mock.response 201 [("location", "http://[")] "" Mock.no_json)
              "http://[" (ValueError "Invalid IPv6 URL")
              (@new_client_inv Mock.platform _ _ _ _ _) eq_refl
              ltac:(split; vm_compute; reflexivity)
              ltac:(vm_compute; reflexivity) ltac:(vm_compute; reflexivity)
              ltac:(vm_compute; reflexivity) eq_refl eq_refl)
    as (Hraised & Htrace & Hout).
  cbv zeta. split; [exact Hraised|]. split.
  - exact (f_equal (map req_method) Htrace).
  - exact Hout.
Defined.


(** ** Certificate verification at login (C9) *)

Section LoginVerification.

Context `{P : Platform}.

(** C9.  Whatever [verify_ssl] is, the login request of the construction
    asks for certificate verification; so against a host on which every
    verified request fails, construction raises the client's error, with
    [verify_ssl=False] as well; while every request of every later call
    on a constructed client carries the flag the client was built with,
    and skips verification when that flag is [False]. *)
Theorem login_verifies_regardless_of_flag :
  forall (base u p : string) (verify : bool) (w : World),
    let run := __init__ base u p verify w in
    (exists q, trace (snd run) = (trace w ++ [q])%list /\ req_verify q = true)
    /\ ((forall q, req_verify q = true ->
                   exists msg resp, fst (serve (remote w) q) = Failed msg resp) ->
        exists msg, fst run = Raise (FDPClientException ("Login failed: " ++ msg)))
    /\ (forall c, fst run = Return c ->
          ssl_verification c = verify
          /\ forall ks,
              Forall (fun q => req_verify q = verify)
                (sent_since (length (trace (snd run)))
                   (world (run_calls ks {| self := c; world := snd run |})))).
Proof.
  intros base u p verify w run. subst run. split; [|split].
  - exists (login_request base u p). split; [apply init_trace|reflexivity].
  - intros Hhost.
    destruct (Hhost (login_request base u p) eq_refl) as (msg & resp & Ho).
    exists msg. rewrite init_rejected; rewrite Ho; reflexivity.
  - intros c Hc. destruct (init_returns _ _ _ _ _ _ Hc) as [t ->].
    split; [reflexivity|]. intros ks.
    destruct (inv_is_retag _ (new_client_inv base u p verify t)) as [ct Hct].
    rewrite Hct.
    destruct (run_calls_effect (new_client base u p verify t) ks ct
                (snd (__init__ base u p verify w))) as (new & Hnew & Hall).
    rewrite (sent_since_app _ _ _ Hnew).
    apply (Forall_impl _ (fun q (Hq : sent_by _ q) => proj2 Hq) Hall).
Qed.

End LoginVerification.

(** A run of C9: a client built with [verify_ssl=False] against a host
    whose certificate is not trusted fails at login. *)
Lemma login_verifies_regardless_of_flag_witness :
  exists msg,
    fst (__init__ (P := Mock.untrusted_platform) "https://fdp.example"
           "user@example.com" "secret" false
           (Mock.world0 Mock.untrusted_platform [Mock.token_issued]))
    = Raise (FDPClientException ("Login failed: " ++ msg)).
Proof.
  pose proof (login_verifies_regardless_of_flag (P := Mock.untrusted_platform)
                "https://fdp.example" "user@example.com" "secret" false
                (Mock.world0 Mock.untrusted_platform [Mock.token_issued])) as H.
  cbv zeta in H. destruct H as (_ & H & _). apply H.
  intros q Hq. exists "certificate verify failed", None.
  cbn. unfold Mock.untrusted. rewrite Hq. reflexivity.
Defined.
(** ** What [create_and_publish] gives back (C10) *)

Section ReturnedIdentity.

Context `{L : Library}.

(** C10, as amended.  [create_and_publish] returns a value only when the
    create response passed the status check and carried that value as its
    Location header, and the publish response passed the status check too.
    When the create is so answered and the publish request, once built, is
    refused, it raises [FDPClientException] and returns nothing.  The error
    does not hide the record: after a 4xx or 5xx answer its message is the
    two prefixes followed by the text of the [HTTPError], which ends in
    [ for url: ] and the URL of the response, the [__context__] chain
    leading to that response; and for a response whose URL is the URL of
    the request that is [urljoin(base_url, Location + "/meta/state")]. *)
Theorem create_and_publish_error_names_the_state_url :
  forall (c : FDPClient) (w : World) (rt : string) (g : Graph),
    client_inv c ->
    let run := Full.create_and_publish rt g {| self := c; world := w |} in
    let create := create_request c rt g in
    (forall v,
        fst run = Full.Returned v ->
        exists r1 r2,
          accepted (fst (serve (remote w) create)) = Some r1
          /\ ci_getitem (resp_headers r1) "Location" = Some v
          /\ accepted (fst (serve (snd (serve (remote w) create))
                             (publish_request c v))) = Some r2)
    /\ (forall r1 x,
          Full.create_builds c rt g ->
          accepted (fst (serve (remote w) create)) = Some r1 ->
          ci_getitem (resp_headers r1) "Location" = Some x ->
          Full.publish_builds c x ->
          let publish := publish_request c x in
          let o2 := fst (serve (snd (serve (remote w) create)) publish) in
          (accepted o2 = None ->
           fst run
           = Full.Raising
               (Raised (FDPClientException
                          ("Failed to create and publish record:Request failed:"
                           ++ Full.failure_text publish o2))
                  (Some (Full.request_failed publish o2))))
          /\ (forall r2,
                o2 = Responded r2 ->
                (400 <= status_code r2 < 600)%Z ->
                let text_ := http_error_head r2 ++ " for url: "
                             ++ response_url publish r2 in
                fst run
                = Full.Raising
                    (Raised (FDPClientException
                               ("Failed to create and publish record:Request failed:"
                                ++ text_))
                       (Some (Raised (FDPClientException ("Request failed:" ++ text_))
                                (Some (Raised (RequestException text_ (Some r2))
                                         (library_context
                                            (RequestException text_ (Some r2))))))))
                /\ (response_url publish r2 = req_url publish ->
                    exists context,
                      fst run
                      = Full.Raising
                          (Raised (FDPClientException
                                     ("Failed to create and publish record:Request failed:"
                                      ++ http_error_head r2 ++ " for url: "
                                      ++ urljoin (base_url c) (x ++ "/meta/state")))
                             context)))).
Proof.
  intros c w rt g Hinv run create. split.
  - intros v Hv. now apply full_create_and_publish_returns.
  - intros r1 x Hb Ha Hloc Hp publish o2. split.
    + intros Ha2. exact (full_publish_refused _ _ _ _ _ _ Hinv Hb Ha Hloc Hp Ha2).
    + intros r2 Ho2 Hstatus text_.
      assert (Ha2 : accepted o2 = None).
      { rewrite Ho2. now apply http_error_rejected. }
      assert (Hrun : fst run
                     = Full.Raising
                         (Raised (FDPClientException
                                    ("Failed to create and publish record:Request failed:"
                                     ++ text_))
                            (Some (Full.request_failed publish (Responded r2))))).
      { subst run. rewrite (full_publish_refused _ _ _ _ _ _ Hinv Hb Ha Hloc Hp Ha2).
        fold create publish o2. rewrite Ho2. reflexivity. }
      split; [exact Hrun|].
      intros Hurl. eexists. rewrite Hrun. subst text_. rewrite Hurl. reflexivity.
Qed.

End ReturnedIdentity.

(** A run of the amended C10: the create is answered 201 with a Location
    header and the publish 500; the message of the error that is raised
    ends with the state URL of the record. *)
Lemma create_and_publish_error_names_the_state_url_witness :
  exists context,
    fst (Full.create_and_publish (L := FullMock.library) "catalog" "graph"
           (FullMock.state0 [Mock.created Mock.record_uri; Mock.server_error "boom"]))
    = Full.Raising
        (Raised (FDPClientException
                   "Failed to create and publish record:Request failed:500 Server Error: Internal Server Error for url: https://fdp.example/catalog/1/meta/state")
           context).
Proof.
  destruct (create_and_publish_error_names_the_state_url (L := FullMock.library)
              (Mock.client0 Mock.platform)
              (Mock.world0 Mock.platform
                 [Mock.created Mock.record_uri; Mock.server_error "boom"])
              "catalog" "graph" (@new_client_inv Mock.platform _ _ _ _ _))
    as [_ H].
  destruct (H (Mock.response 201 [("location", Mock.record_uri)] "" Mock.no_json)
              Mock.record_uri
              ltac:(split; vm_compute; reflexivity) eq_refl eq_refl
              ltac:(vm_compute; reflexivity)) as [Hraised _].
  eexists. exact (Hraised eq_refl).
Defined.

(** C10 as stated fails: the error raised after a refused publish depends
    on the identity of the record just created.  Two runs that differ only
    in the Location header of the create response, the publish request
    being answered with the same 500 response in both, raise different
    errors: each message ends with the state URL of its record. *)
Lemma create_and_publish_error_names_the_state_url_counterexample :
  ~ (forall (L : Library) (c : FDPClient) (w w' : World) (rt : string) (g : Graph)
            (r1 r1' : Response) (x x' : string) (o2 : outcome),
        client_inv c ->
        Full.create_builds c rt g ->
        accepted (fst (serve (remote w) (create_request c rt g))) = Some r1 ->
        accepted (fst (serve (remote w') (create_request c rt g))) = Some r1' ->
        ci_getitem (resp_headers r1) "Location" = Some x ->
        ci_getitem (resp_headers r1') "Location" = Some x' ->
        Full.publish_builds c x ->
        Full.publish_builds c x' ->
        fst (serve (snd (serve (remote w) (create_request c rt g)))
               (publish_request c x)) = o2 ->
        fst (serve (snd (serve (remote w') (create_request c rt g)))
               (publish_request c x')) = o2 ->
        accepted o2 = None ->
        fst (Full.create_and_publish rt g {| self := c; world := w |})
        = fst (Full.create_and_publish rt g {| self := c; world := w' |})).
Proof.
  intros H.
  specialize (H FullMock.library (Mock.client0 Mock.platform)
                (Mock.world0 Mock.platform
                   [Mock.created Mock.record_uri; Mock.server_error "boom"])
                (Mock.world0 Mock.platform
                   [Mock.created FullMock.second_record_uri; Mock.server_error "boom"])
                "catalog" "graph" _ _ Mock.record_uri FullMock.second_record_uri
                (Mock.server_error "boom")
                (@new_client_inv Mock.platform _ _ _ _ _)
                ltac:(split; vm_compute; reflexivity)
                eq_refl eq_refl eq_refl eq_refl
                ltac:(vm_compute; reflexivity) ltac:(vm_compute; reflexivity)
                eq_refl eq_refl eq_refl).
  vm_compute in H. discriminate H.
Qed.

(** ** Further properties of the client: the method check *)

Section MethodCheck.

Context `{L : Library}.


End MethodCheck.



(** ** Further properties of the client: the plain calls *)

Section PlainCalls.

Context `{P : Platform}.


End PlainCalls.


(** ** Further properties of the client: construction *)

Section ConstructionEdges.

Context `{P : Platform}.

Lemma init_world_accepted base u p verify w o rem' r j :
  serve (remote w) (login_request base u p) = (o, rem') ->
  accepted o = Some r ->
  json_result r = JsonValue j ->
  __init__ base u p verify w
  = match json_getitem j "token" with
    | Return t =>
        (Return (new_client base u p verify t),
         if verify
         then answered (login_request base u p) rem' w
         else snd (disable_warnings (answered (login_request base u p) rem' w)))
    | Raise e => (Raise e, answered (login_request base u p) rem' w)
    end.
Proof.
  intros Hs Ha Hj. rewrite init_run, login_fdp_run, Hs, Ha, Hj.
  destruct (json_getitem j "token"); reflexivity.
Qed.

(** X3.  A login whose response passes the status check but whose body
    is not JSON fails like any other login failure: [FDPClientException]
    with the decoder's text after [Login failed: ], the same line in the
    log, one request sent, no client. *)
Theorem login_with_undecodable_body_fails :
  forall (base u p : string) (verify : bool) (w : World)
         (r : Response) (rem' : Remote) (msg : string),
    serve (remote w) (login_request base u p) = (Responded r, rem') ->
    ~ (400 <= status_code r < 600)%Z ->
    json_result r = JsonDecodeError msg ->
    let run := __init__ base u p verify w in
    fst run = Raise (FDPClientException ("Login failed: " ++ msg))
    /\ log (snd run) = (log w ++ [("Login failed: " ++ msg)%string])%list
    /\ trace (snd run) = (trace w ++ [login_request base u p])%list
    /\ insecure_warning_ignored (snd run) = insecure_warning_ignored w.
Proof.
  intros base u p verify w r rem' msg Hs Hst Hj run. subst run.
  rewrite init_run, login_fdp_run, Hs, (not_http_error _ Hst), Hj.
  repeat split.
Qed.

(** X4.  A login whose response passes the status check and decodes to
    JSON without a usable [token] does not end in the client's error: the
    [KeyError] (object without the member) or [TypeError] (anything but
    an object) of the subscript leaves [login_fdp] and [__init__]
    uncaught, with nothing logged. *)
Theorem login_without_token_escapes :
  forall (base u p : string) (verify : bool) (w : World)
         (r : Response) (rem' : Remote) (j : json),
    serve (remote w) (login_request base u p) = (Responded r, rem') ->
    ~ (400 <= status_code r < 600)%Z ->
    json_result r = JsonValue j ->
    (forall members, j = JObj members -> getitem members "token" = None) ->
    let run := __init__ base u p verify w in
    (exists e, fst run = Raise e
               /\ is_FDPClientException e = false
               /\ (forall members, j = JObj members -> e = KeyError "token")
               /\ ((forall members, j <> JObj members) -> is_KeyError e = false))
    /\ log (snd run) = log w
    /\ trace (snd run) = (trace w ++ [login_request base u p])%list.
Proof.
  intros base u p verify w r rem' j Hs Hst Hj Hno run. subst run.
  rewrite (init_world_accepted _ _ _ _ _ _ _ _ _ Hs (not_http_error _ Hst) Hj).
  destruct j as [|b|n|lit|s|items|members]; cbn [json_getitem fst snd];
    try (split; [eexists; repeat split; try discriminate;
                 intros H; exfalso; eapply H; reflexivity
                |split; reflexivity]).
  rewrite (Hno members eq_refl). cbn [fst snd].
  split; [|split; reflexivity].
  eexists. repeat split.
  intros H. exfalso. apply (H members). reflexivity.
Qed.

(** X5.  Construction touches the warning filter only at its very end:
    it is switched off when the login succeeded and [verify_ssl] is
    [False], and is left as it was when [verify_ssl] is [True] or the
    construction raised.  A successful construction logs nothing. *)
Theorem init_disables_warnings_only_on_success :
  forall (base u p : string) (verify : bool) (w : World),
    let run := __init__ base u p verify w in
    insecure_warning_ignored (snd run)
    = match fst run with
      | Return _ => insecure_warning_ignored w || negb verify
      | Raise _ => insecure_warning_ignored w
      end
    /\ (forall c, fst run = Return c -> log (snd run) = log w).
Proof.
  intros base u p verify w run. subst run.
  rewrite init_run, login_fdp_run.
  destruct (serve (remote w) (login_request base u p)) as [o rem'].
  destruct (accepted o) as [r|]; [|split; [reflexivity|discriminate]].
  destruct (json_result r) as [j|msg]; [|split; [reflexivity|discriminate]].
  destruct (json_getitem j "token") as [t|e]; [|split; [reflexivity|discriminate]].
  destruct verify; cbn; split; try reflexivity.
  - now rewrite orb_false_r.
  - now rewrite orb_true_r.
Qed.

End ConstructionEdges.

(** A run of X3: the login is answered 200 with a body that is not JSON. *)
Lemma login_with_undecodable_body_fails_witness :
  fst (__init__ (P := Mock.platform) "https://fdp.example" "user@example.com"
         "secret" true (Mock.world0 Mock.platform [Mock.accepted_state]))
  = Raise (FDPClientException "Login failed: Expecting value").
Proof.
  pose proof (login_with_undecodable_body_fails (P := Mock.platform)
                "https://fdp.example" "user@example.com" "secret" true
                (Mock.world0 Mock.platform [Mock.accepted_state])
                (Mock.response 200 [] "" Mock.no_json) [] "Expecting value"
                eq_refl) as H.
  cbv zeta in H. destruct H as [H _]; [cbn; lia|reflexivity|exact H].
Defined.

(** A run of X4: the login is answered 200 with the JSON object
    [{"detail": "ok"}]. *)
Lemma login_without_token_escapes_witness :
  fst (__init__ (P := Mock.platform) "https://fdp.example" "user@example.com"
         "secret" true
         (Mock.world0 Mock.platform
            [Responded (Mock.response 200 [] ""
                          (JsonValue (JObj [("detail", JStr "ok")])))]))
  = Raise (KeyError "token").
Proof.
  pose proof (login_without_token_escapes (P := Mock.platform)
                "https://fdp.example" "user@example.com" "secret" true
                (Mock.world0 Mock.platform
                   [Responded (Mock.response 200 [] ""
                                 (JsonValue (JObj [("detail", JStr "ok")])))])
                _ [] (JObj [("detail", JStr "ok")]) eq_refl) as H.
  cbv zeta in H.
  destruct H as [(e & He & _ & Hkey & _) _].
  - cbn. lia.
  - reflexivity.
  - intros members [= <-]. reflexivity.
  - rewrite He. f_equal. apply (Hkey [("detail", JStr "ok")]). reflexivity.
Defined.

(** A run of X5: a client built with [verify_ssl=False] switches the
    warning off; the same construction with a refused login does not. *)
Lemma init_disables_warnings_only_on_success_witness :
  insecure_warning_ignored
    (snd (__init__ (P := Mock.platform) "https://fdp.example" "user@example.com"
            "secret" false (Mock.world0 Mock.platform [Mock.token_issued])))
  = true
  /\ insecure_warning_ignored
       (snd (__init__ (P := Mock.platform) "https://fdp.example" "user@example.com"
               "secret" false (Mock.world0 Mock.platform [Mock.server_error "no"])))
     = false.
Proof.
  split.
  - pose proof (init_disables_warnings_only_on_success (P := Mock.platform)
                  "https://fdp.example" "user@example.com" "secret" false
                  (Mock.world0 Mock.platform [Mock.token_issued])) as H.
    cbv zeta in H. destruct H as [H _]. rewrite H. reflexivity.
  - pose proof (init_disables_warnings_only_on_success (P := Mock.platform)
                  "https://fdp.example" "user@example.com" "secret" false
                  (Mock.world0 Mock.platform [Mock.server_error "no"])) as H.
    cbv zeta in H. destruct H as [H _]. rewrite H. reflexivity.
Defined.

(** ** Further properties of the client: create and publish *)

Section CreateAndPublishEdges.

Context `{P : Platform}.

Lemma retag_same ct c :
  client_inv c -> getitem (headers c) "Content-Type" = Some ct -> retag ct c = c.
Proof.
  intros (ct0 & Hh & Hs) Hct. rewrite Hh in Hct. cbn in Hct.
  injection Hct as ->. destruct c; cbn in *. unfold retag; cbn.
  now rewrite <- Hs, <- Hh.
Qed.

(** X6.  Switching to the content type the client already has changes
    nothing: a create on a client whose headers hold [text/turtle], as
    they do right after construction, leaves the client object exactly as
    it was, and so does a publish on a client whose headers hold
    [application/json]. *)
Theorem same_content_type_leaves_client_unchanged :
  forall (c : FDPClient) (w : World) (rt : string) (g : Graph) (url : string),
    client_inv c ->
    (getitem (headers c) "Content-Type" = Some "text/turtle" ->
       self (snd (post_serialised rt g {| self := c; world := w |})) = c)
    /\ (getitem (headers c) "Content-Type" = Some "application/json" ->
          self (snd (publish_record url {| self := c; world := w |})) = c)
    /\ (forall base u p verify t,
          c = new_client base u p verify t ->
          self (snd (create_and_publish rt g {| self := c; world := w |})) = c
          \/ self (snd (create_and_publish rt g {| self := c; world := w |}))
             = retag "application/json" c).
Proof.
  intros c w rt g url Hinv. split; [|split].
  - intros Hct. rewrite (post_serialised_run _ _ _ _ Hinv), settle_self.
    now apply retag_same.
  - intros Hct. rewrite (publish_record_run _ _ _ Hinv). cbn [snd].
    rewrite settle_self. now apply retag_same.
  - intros base u p verify t Hc.
    destruct (create_and_publish_effect rt g c w Hinv) as [_ [[Hs _]|[x [Hs _]]]].
    + left. rewrite Hs. apply retag_same; [exact Hinv|]. now rewrite Hc.
    + now right.
Qed.



End CreateAndPublishEdges.

(** A run of X6: a create on the client as built leaves it as built. *)
Lemma same_content_type_leaves_client_unchanged_witness :
  self (snd (post_serialised (P := Mock.platform) "catalog" "graph"
               (Mock.state0 [Mock.created Mock.record_uri])))
  = Mock.client0 Mock.platform.
Proof.
  pose proof (same_content_type_leaves_client_unchanged (P := Mock.platform)
                (Mock.client0 Mock.platform)
                (Mock.world0 Mock.platform [Mock.created Mock.record_uri])
                "catalog" "graph" Mock.record_uri
                (@new_client_inv Mock.platform _ _ _ _ _)) as H.
  destruct H as [H _]. exact (H eq_refl).
Defined.



(** ** Further properties of the bulk publish loop *)

Section BulkPublishEdges.

Context `{P : Platform}.






End BulkPublishEdges.

(** ** Further properties of the bulk publish loop: one turn *)

Section LoopTurn.

Context `{L : Library}.



End LoopTurn.



(** ** [generate_unique_code] *)

Section UniqueCodes.

Lemma join_some (chosen : list (option ascii)) (cs : list ascii) :
  chosen = map Some cs -> Codes.join chosen = Some (string_of_list_ascii cs).
Proof.
  intros ->. induction cs as [|c cs IH]; cbn; [reflexivity|now rewrite IH].
Qed.

Lemma choice_in_alphabet draw :
  exists c, Codes.choice draw (Codes.ascii_letters ++ Codes.digits) = Some c
            /\ Codes.is_alnum c = true.
Proof.
  assert (Hall : Forall (fun c => Codes.is_alnum c = true)
                   (list_ascii_of_string (Codes.ascii_letters ++ Codes.digits)))
    by (repeat constructor).
  assert (Hlt : draw mod 62 < 62) by (apply Nat.mod_upper_bound; discriminate).
  change (Codes.choice draw (Codes.ascii_letters ++ Codes.digits))
    with (nth_error (list_ascii_of_string (Codes.ascii_letters ++ Codes.digits))
            (draw mod 62)).
  destruct (nth_error (list_ascii_of_string (Codes.ascii_letters ++ Codes.digits))
              (draw mod 62)) as [c|] eqn:E.
  - exists c. split; [reflexivity|].
    rewrite Forall_forall in Hall. apply Hall. eapply nth_error_In. exact E.
  - apply nth_error_None in E. change (62 <= draw mod 62) in E. lia.
Qed.

Lemma chosen_codes entropy (idx : list nat) :
  exists cs,
    map (fun i => Codes.choice (entropy i) (Codes.ascii_letters ++ Codes.digits)) idx
    = map Some cs
    /\ length cs = length idx
    /\ Forall (fun c => Codes.is_alnum c = true) cs.
Proof.
  induction idx as [|i idx (cs & Hmap & Hlen & Hall)].
  - exists []. repeat split. constructor.
  - destruct (choice_in_alphabet (entropy i)) as (c & Hc & Hal).
    exists (c :: cs). cbn [map length]. rewrite Hc, Hmap, Hlen.
    repeat split. now constructor.
Qed.

(** X11.  [generate_unique_code] always returns a code, whatever the
    entropy source delivers: it has exactly [length] characters (none when
    [length] is zero or negative, five when [length] is left out), and
    every one of them is an ASCII letter or digit. *)
Theorem generate_unique_code_length_and_alphabet :
  forall (entropy : nat -> nat) (length : option Z),
  exists code,
    Codes.generate_unique_code entropy length = Some code
    /\ String.length code
       = Z.to_nat (match length with Some n => n | None => 5%Z end)
    /\ Forall (fun c => Codes.is_alnum c = true) (list_ascii_of_string code).
Proof.
  intros entropy length. unfold Codes.generate_unique_code.
  set (n := match length with Some n => n | None => 5%Z end).
  destruct (chosen_codes entropy (Codes.range n)) as (cs & Hmap & Hlen & Hall).
  exists (string_of_list_ascii cs). split; [now apply join_some|].
  rewrite list_ascii_of_string_of_list_ascii. split; [|exact Hall].
  rewrite <- (list_ascii_of_string_of_list_ascii cs) in Hlen at 1.
  clear Hmap Hall. unfold Codes.range in Hlen. rewrite length_seq in Hlen.
  rewrite <- Hlen.
  generalize (string_of_list_ascii cs). intros s.
  induction s as [|c s IH]; cbn; [reflexivity|now rewrite IH].
Qed.

End UniqueCodes.

(** ** RDF graphs and the dataset graphs *)

Section Graphs.

Lemma option_eqb_eq a b : Rdf.option_eqb a b = true <-> a = b.
Proof.
  destruct a, b; cbn; try (split; congruence).
  rewrite String.eqb_eq. split; congruence.
Qed.

Lemma node_eqb_eq a b : Rdf.node_eqb a b = true <-> a = b.
Proof.
  destruct a, b; cbn; try (split; congruence).
  - rewrite String.eqb_eq. split; congruence.
  - rewrite andb_true_iff, String.eqb_eq, option_eqb_eq. split.
    + now intros [-> ->].
    + intros [= -> ->]. now split.
Qed.

Lemma triple_eqb_eq a b : Rdf.triple_eqb a b = true <-> a = b.
Proof.
  destruct a as [[s1 p1] o1], b as [[s2 p2] o2]. cbn.
  rewrite !andb_true_iff, !node_eqb_eq. split.
  - now intros [[-> ->] ->].
  - intros [= -> -> ->]. now repeat split.
Qed.

Lemma contains_In g t : Rdf.contains g t = true <-> In t g.
Proof.
  unfold Rdf.contains. rewrite existsb_exists. split.
  - intros (t' & Hin & Heq). apply triple_eqb_eq in Heq. now subst.
  - intros Hin. exists t. split; [exact Hin|now apply triple_eqb_eq].
Qed.

Lemma In_add g t' t : In t (Rdf.add g t') <-> In t g \/ t = t'.
Proof.
  unfold Rdf.add. destruct (Rdf.contains g t') eqn:E.
  - apply contains_In in E. split; [now left|]. intros [H| ->]; assumption.
  - rewrite in_app_iff. cbn. intuition congruence.
Qed.

Lemma add_present g t : In t g -> Rdf.add g t = g.
Proof. intros H. unfold Rdf.add. apply contains_In in H. now rewrite H. Qed.

Lemma NoDup_add g t : NoDup g -> NoDup (Rdf.add g t).
Proof.
  intros Hnd. unfold Rdf.add. destruct (Rdf.contains g t) eqn:E; [exact Hnd|].
  apply NoDup_app; [exact Hnd|repeat constructor; intros []|].
  intros x Hin [<-|[]]. apply contains_In in Hin. congruence.
Qed.

Lemma length_add g t : length g <= length (Rdf.add g t) <= S (length g).
Proof.
  unfold Rdf.add. destruct (Rdf.contains g t); [lia|].
  rewrite length_app. cbn. lia.
Qed.

(** Adding a list of triples, one after the other. *)
Lemma In_add_all ts : forall g t,
  In t (fold_left Rdf.add ts g) <-> In t g \/ In t ts.
Proof.
  induction ts as [|t' ts IH]; intros g t; cbn [fold_left].
  - cbn. tauto.
  - rewrite IH, In_add. cbn. intuition congruence.
Qed.

Lemma NoDup_add_all ts : forall g, NoDup g -> NoDup (fold_left Rdf.add ts g).
Proof.
  induction ts as [|t' ts IH]; intros g Hnd; cbn [fold_left]; [exact Hnd|].
  apply IH. now apply NoDup_add.
Qed.

Lemma length_add_all ts : forall g,
  length (fold_left Rdf.add ts g) <= length g + length ts.
Proof.
  induction ts as [|t' ts IH]; intros g; cbn [fold_left length]; [lia|].
  specialize (IH (Rdf.add g t')). pose proof (length_add g t'). lia.
Qed.

(** Adding one triple for each element of a list. *)
Lemma In_add_each {A} (f : A -> Rdf.Triple) xs : forall g t,
  In t (fold_left (fun g x => Rdf.add g (f x)) xs g)
  <-> In t g \/ exists x, In x xs /\ t = f x.
Proof.
  induction xs as [|x xs IH]; intros g t; cbn [fold_left].
  - split; [now left|]. intros [H|(x & [] & _)]. exact H.
  - rewrite IH, In_add. split.
    + intros [[H| ->]|(y & Hy & ->)]; eauto.
      * right. exists x. split; [now left|reflexivity].
      * right. exists y. split; [now right|reflexivity].
    + intros [H|(y & [<-|Hy] & ->)]; eauto.
Qed.

Lemma NoDup_add_each {A} (f : A -> Rdf.Triple) xs : forall g,
  NoDup g -> NoDup (fold_left (fun g x => Rdf.add g (f x)) xs g).
Proof.
  induction xs as [|x xs IH]; intros g Hnd; cbn [fold_left]; [exact Hnd|].
  apply IH. now apply NoDup_add.
Qed.

Lemma length_add_each {A} (f : A -> Rdf.Triple) xs : forall g,
  length g <= length (fold_left (fun g x => Rdf.add g (f x)) xs g)
  <= length g + length xs.
Proof.
  induction xs as [|x xs IH]; intros g; cbn [fold_left length]; [lia|].
  specialize (IH (Rdf.add g (f x))). pose proof (length_add g (f x)). lia.
Qed.

(** A graph built from a list of triples and then one triple for each
    element of two further lists, as [create_dataset_graph] builds its
    graph. *)
Lemma In_built {A B} (fixed : list Rdf.Triple) (f : A -> Rdf.Triple) xs
    (h : B -> Rdf.Triple) ys t :
  In t (fold_left (fun g y => Rdf.add g (h y)) ys
          (fold_left (fun g x => Rdf.add g (f x)) xs
             (fold_left Rdf.add fixed Rdf.empty)))
  <-> In t fixed \/ (exists x, In x xs /\ t = f x) \/ (exists y, In y ys /\ t = h y).
Proof.
  rewrite (In_add_each h), (In_add_each f), In_add_all. cbn [In Rdf.empty]. tauto.
Qed.

Lemma NoDup_built {A B} (fixed : list Rdf.Triple) (f : A -> Rdf.Triple) xs
    (h : B -> Rdf.Triple) ys :
  NoDup (fold_left (fun g y => Rdf.add g (h y)) ys
           (fold_left (fun g x => Rdf.add g (f x)) xs
              (fold_left Rdf.add fixed Rdf.empty))).
Proof. apply NoDup_add_each, NoDup_add_each, NoDup_add_all. constructor. Qed.

Lemma length_built {A B} (fixed : list Rdf.Triple) (f : A -> Rdf.Triple) xs
    (h : B -> Rdf.Triple) ys :
  length (fold_left (fun g y => Rdf.add g (h y)) ys
            (fold_left (fun g x => Rdf.add g (f x)) xs
               (fold_left Rdf.add fixed Rdf.empty)))
  <= length fixed + length xs + length ys.
Proof.
  pose proof (length_add_each h ys
                (fold_left (fun g x => Rdf.add g (f x)) xs
                   (fold_left Rdf.add fixed Rdf.empty))) as H1.
  pose proof (length_add_each f xs (fold_left Rdf.add fixed Rdf.empty)) as H2.
  pose proof (length_add_all fixed Rdf.empty) as H3. cbn [length Rdf.empty] in H3.
  lia.
Qed.

(** X12.  [create_agent] adds to a graph the name and the identifier of
    the agent and nothing else: the graph it returns holds exactly the
    triples it held and those two, stays free of duplicates, grows by at
    most two, and a second call with the same arguments leaves it as it
    is. *)
Theorem create_agent_adds_name_and_identifier :
  forall (graph : Rdf.Graph) (uri name identifier : string),
    let graph' := Datasets.create_agent graph uri name identifier in
    (forall t,
        In t graph'
        <-> In t graph
            \/ t = (Rdf.URIRef uri, FOAF.name, Rdf.Literal name None)
            \/ t = (Rdf.URIRef uri, DCTERMS.identifier, Rdf.Literal identifier None))
    /\ Datasets.create_agent graph' uri name identifier = graph'
    /\ (NoDup graph -> NoDup graph')
    /\ length graph <= length graph' <= length graph + 2.
Proof.
  intros graph uri name identifier graph'.
  assert (Hin : forall t,
             In t graph'
             <-> In t graph
                 \/ t = (Rdf.URIRef uri, FOAF.name, Rdf.Literal name None)
                 \/ t = (Rdf.URIRef uri, DCTERMS.identifier,
                         Rdf.Literal identifier None)).
  { intros t. subst graph'. unfold Datasets.create_agent.
    rewrite !In_add. tauto. }
  split; [exact Hin|]. split; [|split].
  - unfold Datasets.create_agent at 1.
    rewrite (add_present graph') by (apply Hin; auto).
    apply add_present. apply Hin. auto.
  - intros Hnd. subst graph'. unfold Datasets.create_agent.
    now apply NoDup_add, NoDup_add.
  - subst graph'. unfold Datasets.create_agent.
    pose proof (length_add graph (Rdf.URIRef uri, FOAF.name, Rdf.Literal name None)).
    pose proof (length_add
                  (Rdf.add graph (Rdf.URIRef uri, FOAF.name, Rdf.Literal name None))
                  (Rdf.URIRef uri, DCTERMS.identifier, Rdf.Literal identifier None)).
    lia.
Qed.

End Graphs.

(** A run of X12: the publisher of the notebook's catalogue, described
    twice over. *)
Lemma create_agent_adds_name_and_identifier_witness :
  let g := Datasets.create_agent Rdf.empty "https://example.com/org" "AMC2" "org-1" in
  length g = 2 /\ Datasets.create_agent g "https://example.com/org" "AMC2" "org-1" = g.
Proof.
  pose proof (create_agent_adds_name_and_identifier Rdf.empty
                "https://example.com/org" "AMC2" "org-1") as H.
  cbv zeta in H. destruct H as (_ & Hidem & _). split; [reflexivity|exact Hidem].
Defined.

(** ** The graph of a dataset *)

Section DatasetGraphs.

Context `{L : Datasets.Library}.

(** The graph the builder returns: the twelve triples it adds first,
    then the keywords, then the themes. *)
Lemma create_dataset_graph_built record id0 rest issued_date :
  Datasets.id record = id0 :: rest ->
  Datasets.strptime_isoformat (Datasets.issued record) = Return issued_date ->
  let dataset_uri := Rdf.URIRef ("http://example.com/dataset_" ++ id0) in
  let author := Rdf.URIRef (Datasets.author_id record) in
  let publisher := Rdf.URIRef (Datasets.publisher_id record) in
  Datasets.create_dataset_graph record
  = Datasets.Graph_
      (fold_left
         (fun g theme =>
            Rdf.add g (dataset_uri, DCAT.theme,
                       Rdf.URIRef (Datasets.quote (Datasets.strip theme))))
         (Datasets.theme record)
         (fold_left
            (fun g keyword =>
               Rdf.add g (dataset_uri, DCAT.keyword,
                          Rdf.Literal (Datasets.strip keyword) None))
            (Datasets.keywords record)
            (fold_left Rdf.add
               [(dataset_uri, RDF.type, DCAT.Dataset);
                (dataset_uri, DCTERMS.title, Rdf.Literal (Datasets.name record) None);
                (dataset_uri, DCTERMS.description,
                 Rdf.Literal (Datasets.description record) None);
                (dataset_uri, DCTERMS.identifier, Rdf.Literal id0 None);
                (dataset_uri, DCTERMS.isPartOf, Rdf.URIRef Datasets.catalog_fdp_id);
                (dataset_uri, DCTERMS.issued,
                 Rdf.Literal issued_date (Some XSD.dateTime));
                (dataset_uri, DCTERMS.creator, author);
                (author, FOAF.name, Rdf.Literal (Datasets.author_name record) None);
                (author, DCTERMS.identifier,
                 Rdf.Literal (Datasets.author_id record) None);
                (dataset_uri, DCTERMS.publisher, publisher);
                (publisher, FOAF.name,
                 Rdf.Literal (Datasets.publisher_name record) None);
                (publisher, DCTERMS.identifier,
                 Rdf.Literal (Datasets.publisher_id record) None)]
               Rdf.empty))).
Proof.
  intros Hid Hdate dataset_uri author publisher.
  unfold Datasets.create_dataset_graph. rewrite Hid, Hdate.
  subst dataset_uri author publisher.
  cbv beta iota zeta delta [fold_left]. reflexivity.
Qed.

Lemma create_dataset_graph_inputs record g :
  Datasets.create_dataset_graph record = Datasets.Graph_ g ->
  exists id0 rest issued_date,
    Datasets.id record = id0 :: rest
    /\ Datasets.strptime_isoformat (Datasets.issued record) = Return issued_date.
Proof.
  intros Hbuilt. unfold Datasets.create_dataset_graph in Hbuilt.
  destruct (Datasets.id record) as [|id0 rest]; [discriminate|].
  destruct (Datasets.strptime_isoformat (Datasets.issued record))
    as [issued_date|e]; [|discriminate].
  now exists id0, rest, issued_date.
Qed.

(** X13.  [create_dataset_graph] builds a graph exactly when the record
    has an id and its issue date parses: an empty id list ends in the
    [IndexError] of [record['id'][0]], before the date is looked at, and a
    date that does not parse ends in the parser's [ValueError].  The graph
    it builds holds the twelve triples about the dataset, its author and
    its publisher, one keyword triple for each keyword, stripped, one theme
    triple for each theme, stripped and quoted, and nothing else. *)
Theorem create_dataset_graph_contents :
  forall record : Datasets.Row,
    let built := Datasets.create_dataset_graph record in
    (Datasets.id record = [] ->
       built = Datasets.IndexError "list index out of range")
    /\ (forall id0 rest e,
          Datasets.id record = id0 :: rest ->
          Datasets.strptime_isoformat (Datasets.issued record) = Raise e ->
          built = Datasets.Raised e)
    /\ (forall id0 rest issued_date,
          Datasets.id record = id0 :: rest ->
          Datasets.strptime_isoformat (Datasets.issued record) = Return issued_date ->
          let dataset_uri := Rdf.URIRef ("http://example.com/dataset_" ++ id0) in
          let author := Rdf.URIRef (Datasets.author_id record) in
          let publisher := Rdf.URIRef (Datasets.publisher_id record) in
          exists g,
            built = Datasets.Graph_ g
            /\ forall t,
                In t g
                <-> In t
                      [(dataset_uri, RDF.type, DCAT.Dataset);
                       (dataset_uri, DCTERMS.title,
                        Rdf.Literal (Datasets.name record) None);
                       (dataset_uri, DCTERMS.description,
                        Rdf.Literal (Datasets.description record) None);
                       (dataset_uri, DCTERMS.identifier, Rdf.Literal id0 None);
                       (dataset_uri, DCTERMS.isPartOf,
                        Rdf.URIRef Datasets.catalog_fdp_id);
                       (dataset_uri, DCTERMS.issued,
                        Rdf.Literal issued_date (Some XSD.dateTime));
                       (dataset_uri, DCTERMS.creator, author);
                       (author, FOAF.name,
                        Rdf.Literal (Datasets.author_name record) None);
                       (author, DCTERMS.identifier,
                        Rdf.Literal (Datasets.author_id record) None);
                       (dataset_uri, DCTERMS.publisher, publisher);
                       (publisher, FOAF.name,
                        Rdf.Literal (Datasets.publisher_name record) None);
                       (publisher, DCTERMS.identifier,
                        Rdf.Literal (Datasets.publisher_id record) None)]
                    \/ (exists keyword,
                          In keyword (Datasets.keywords record)
                          /\ t = (dataset_uri, DCAT.keyword,
                                  Rdf.Literal (Datasets.strip keyword) None))
                    \/ (exists theme,
                          In theme (Datasets.theme record)
                          /\ t = (dataset_uri, DCAT.theme,
                                  Rdf.URIRef (Datasets.quote (Datasets.strip theme))))).
Proof.
  intros record built. subst built. split; [|split].
  - intros Hid. unfold Datasets.create_dataset_graph. now rewrite Hid.
  - intros id0 rest e Hid Hdate. unfold Datasets.create_dataset_graph.
    now rewrite Hid, Hdate.
  - intros id0 rest issued_date Hid Hdate dataset_uri author publisher.
    rewrite (create_dataset_graph_built _ _ _ _ Hid Hdate). cbv zeta.
    eexists. split; [reflexivity|]. intros t. apply In_built.
Qed.

(** X14.  The graph of a dataset is a set: it has no triple twice, so
    keywords or themes that come out equal count once, and it has at
    least the eight triples that describe the dataset itself and at most
    twelve triples and one for each keyword and theme. *)
Theorem create_dataset_graph_size :
  forall (record : Datasets.Row) (g : Rdf.Graph),
    Datasets.create_dataset_graph record = Datasets.Graph_ g ->
    NoDup g
    /\ 8 <= length g
       <= 12 + length (Datasets.keywords record) + length (Datasets.theme record).
Proof.
  intros record g Hbuilt.
  destruct (create_dataset_graph_inputs _ _ Hbuilt)
    as (id0 & rest & issued_date & Hid & Hdate).
  rewrite (create_dataset_graph_built _ _ _ _ Hid Hdate) in Hbuilt.
  cbv zeta in Hbuilt.
  match type of Hbuilt with
  | Datasets.Graph_ ?built = _ => assert (Hg : g = built) by congruence
  end.
  clear Hbuilt. subst g.
  split; [apply NoDup_built|]. split.
  - set (dataset_uri := Rdf.URIRef ("http://example.com/dataset_" ++ id0)).
    apply (NoDup_incl_length
             (l := [(dataset_uri, RDF.type, DCAT.Dataset);
                    (dataset_uri, DCTERMS.title,
                     Rdf.Literal (Datasets.name record) None);
                    (dataset_uri, DCTERMS.description,
                     Rdf.Literal (Datasets.description record) None);
                    (dataset_uri, DCTERMS.identifier, Rdf.Literal id0 None);
                    (dataset_uri, DCTERMS.isPartOf,
                     Rdf.URIRef Datasets.catalog_fdp_id);
                    (dataset_uri, DCTERMS.issued,
                     Rdf.Literal issued_date (Some XSD.dateTime));
                    (dataset_uri, DCTERMS.creator,
                     Rdf.URIRef (Datasets.author_id record));
                    (dataset_uri, DCTERMS.publisher,
                     Rdf.URIRef (Datasets.publisher_id record))])).
    + repeat (constructor; [cbn [In]; intros H; decompose [or] H;
                            try contradiction; discriminate|]).
      constructor.
    + intros t Ht. apply In_built. left. cbn [In] in *.
      decompose [or] Ht; try contradiction; subst t; auto 15.
  - etransitivity; [apply length_built|]. cbn [length]. lia.
Qed.

(** X15.  The graph of a dataset is self-contained: it places the dataset
    in the catalogue, and whatever node it names as creator or publisher of
    anything is itself described in the graph, by a name and by its own
    address as identifier. *)
Theorem create_dataset_graph_describes_its_agents :
  forall (record : Datasets.Row) (g : Rdf.Graph),
    Datasets.create_dataset_graph record = Datasets.Graph_ g ->
    (exists dataset_uri,
        In (dataset_uri, RDF.type, DCAT.Dataset) g
        /\ In (dataset_uri, DCTERMS.isPartOf, Rdf.URIRef Datasets.catalog_fdp_id) g)
    /\ forall s p agent,
        In (s, p, agent) g ->
        p = DCTERMS.creator \/ p = DCTERMS.publisher ->
        exists address name,
          agent = Rdf.URIRef address
          /\ In (agent, FOAF.name, Rdf.Literal name None) g
          /\ In (agent, DCTERMS.identifier, Rdf.Literal address None) g.
Proof.
  intros record g Hbuilt.
  destruct (create_dataset_graph_inputs _ _ Hbuilt)
    as (id0 & rest & issued_date & Hid & Hdate).
  rewrite (create_dataset_graph_built _ _ _ _ Hid Hdate) in Hbuilt.
  cbv zeta in Hbuilt.
  match type of Hbuilt with
  | Datasets.Graph_ ?built = _ => assert (Hg : g = built) by congruence
  end.
  clear Hbuilt. subst g.
  split.
  - exists (Rdf.URIRef ("http://example.com/dataset_" ++ id0)).
    split; apply In_built; left; cbn [In]; auto 10.
  - intros s p agent Hin Hp.
    apply In_built in Hin. destruct Hin as [Hin|[(k & _ & Hk)|(th & _ & Hth)]].
    + cbn [In] in Hin. decompose [or] Hin; clear Hin; try contradiction;
        match goal with
        | H : _ = (s, p, agent) |- _ => injection H as <- <- <-
        end;
        try (destruct Hp as [Hp|Hp]; discriminate Hp).
      * exists (Datasets.author_id record), (Datasets.author_name record).
        split; [reflexivity|].
        split; apply In_built; left; cbn [In]; auto 15.
      * exists (Datasets.publisher_id record), (Datasets.publisher_name record).
        split; [reflexivity|].
        split; apply In_built; left; cbn [In]; auto 15.
    + injection Hk as -> -> ->. destruct Hp as [Hp|Hp]; discriminate Hp.
    + injection Hth as -> -> ->. destruct Hp as [Hp|Hp]; discriminate Hp.
Qed.

End DatasetGraphs.

(** A run of X13: the first row of the example data, whose keyword
    [ technic] comes out stripped, and a row whose issue date is no date. *)
Lemma create_dataset_graph_contents_witness :
  (exists g,
      @Datasets.create_dataset_graph Datasets.sample_library Datasets.gryffindor
      = Datasets.Graph_ g
      /\ In (Rdf.URIRef "http://example.com/dataset_1", DCAT.keyword,
             Rdf.Literal "technic" None) g)
  /\ @Datasets.create_dataset_graph Datasets.sample_library
       (Datasets.mkRow ["1"] "n" "d" "a" "https://example.com/a" [] "p"
          "https://example.com/p" [] "yesterday")
     = Datasets.Raised (ValueError "time data does not match format '%d-%m-%Y'").
Proof.
  pose proof (create_dataset_graph_contents (L := Datasets.sample_library)
                Datasets.gryffindor) as H.
  pose proof (create_dataset_graph_contents (L := Datasets.sample_library)
                (Datasets.mkRow ["1"] "n" "d" "a" "https://example.com/a" [] "p"
                   "https://example.com/p" [] "yesterday")) as H'.
  cbv zeta in H, H'. split.
  - destruct H as (_ & _ & H).
    destruct (H "1" [] "1992-04-03T00:00:00" eq_refl
                ltac:(vm_compute; reflexivity)) as (g & Hg & Hin).
    exists g. split; [exact Hg|].
    apply Hin. right. left. exists " technic".
    split; [right; left; reflexivity|reflexivity].
  - destruct H' as (_ & H' & _).
    apply (H' "1" []); [reflexivity|vm_compute; reflexivity].
Defined.

(** A run of X14: a row whose two keywords strip to the same word has one
    keyword triple, thirteen triples in all. *)
Lemma create_dataset_graph_size_witness :
  exists g,
    @Datasets.create_dataset_graph Datasets.sample_library
      (Datasets.mkRow ["7"] "n" "d" "a" "https://example.com/a" ["elf"; " elf"] "p"
         "https://example.com/p" [] "27-05-1992")
    = Datasets.Graph_ g
    /\ NoDup g /\ length g = 13.
Proof.
  eexists. split; [vm_compute; reflexivity|].
  split; [|vm_compute; reflexivity].
  apply (create_dataset_graph_size (L := Datasets.sample_library)
           (Datasets.mkRow ["7"] "n" "d" "a" "https://example.com/a" ["elf"; " elf"] "p"
              "https://example.com/p" [] "27-05-1992")).
  vm_compute. reflexivity.
Defined.

(** A run of X15: the publisher of the first row of the example data. *)
Lemma create_dataset_graph_describes_its_agents_witness :
  exists g,
    @Datasets.create_dataset_graph Datasets.sample_library Datasets.gryffindor
    = Datasets.Graph_ g
    /\ exists name,
        In (Rdf.URIRef "https://harrypotter.fandom.com/wiki/Gryffindor", FOAF.name,
            Rdf.Literal name None) g.
Proof.
  eexists. split; [vm_compute; reflexivity|].
  destruct (create_dataset_graph_describes_its_agents (L := Datasets.sample_library)
              Datasets.gryffindor _ ltac:(vm_compute; reflexivity)) as [_ H].
  destruct (H (Rdf.URIRef "http://example.com/dataset_1") DCTERMS.publisher
              (Rdf.URIRef "https://harrypotter.fandom.com/wiki/Gryffindor"))
    as (address & name & Haddr & Hname & _).
  - vm_compute. auto 20.
  - now right.
  - now exists name.
Defined.
